(** * The tray client of the bar (src/x11/tray_client.cpp)

    A shallow embedding of [tray_client]: the object that owns the embedder
    (wrapper) window of one tray icon.  Member functions become functions on
    an explicit object state and an explicit model of the X connection.

    Logging ([m_log.trace], [m_log.err]) issues no window-system request and
    changes no member; it is left out of the embedding. *)

From stdpp Require Import base gmap list strings.
From Stdlib Require Import ZArith Lia.

#[local] Open Scope Z_scope.

(** ** Machine integers *)

(** [uint32_t], [uint16_t] and [int16_t] values are integers kept in range by
    the conversions below. *)
Definition to_u32 (z : Z) : Z := z mod 2 ^ 32.
Definition to_u16 (z : Z) : Z := z mod 2 ^ 16.
Definition to_i16 (z : Z) : Z := (z + 2 ^ 15) mod 2 ^ 16 - 2 ^ 15.

(** [xcb_window_t], [xcb_pixmap_t], [xcb_gcontext_t], [xcb_visualid_t] and
    [xcb_colormap_t] are 32 bit resource identifiers. *)
Abbreviation xid := N (only parsing).

Definition XCB_NONE : xid := 0%N.

(** ** Plain data of the bar *)

(** [struct size { unsigned int w; unsigned int h; }] *)
Record size := { size_w : Z; size_h : Z }.

(** [struct position { int x; int y; }] with its [operator==]. *)
Record position := { pos_x : Z; pos_y : Z }.

Definition position_eqb (a b : position) : bool :=
  (pos_x a =? pos_x b) && (pos_y a =? pos_y b).

(** [xcb_rectangle_t]: [int16_t x, y; uint16_t width, height]. *)
Record xcb_rectangle_t :=
  { rect_x : Z; rect_y : Z; rect_width : Z; rect_height : Z }.

(** Modelled from the spec: [xembed::info] is declared in x11/xembed.hpp,
    which is not part of the sources at hand.  The spec describes it as a
    version number and flag bits with accessors for the version and for the
    mapped bit; the mapped bit is bit 0 of the flags (XEMBED_MAPPED). *)
Record xembed_info := { xi_version : Z; xi_flags : Z }.

Definition XEMBED_MAPPED : Z := Z.shiftl 1 0.

Definition is_mapped (i : xembed_info) : bool :=
  Z.land (xi_flags i) XEMBED_MAPPED =? XEMBED_MAPPED.

Definition get_version (i : xembed_info) : Z := xi_version i.

(** The cairo surface bound to the backing pixmap
    ([cairo::xcb_surface(conn, pixmap, visual, w, h)]); the drawing context
    [m_context] is bound to it and carries no data of its own. *)
Record xcb_surface :=
  { sf_pixmap : xid; sf_visual : xid; sf_width : Z; sf_height : Z }.

(** ** The object *)

(** The members of [tray_client].  [m_bg_slice] is a shared pointer into the
    background manager: [None] is the null pointer, [Some i] the i-th slice
    the manager handed out. *)
Record tray_client := {
  m_name : string;
  m_client : xid;
  m_wrapper : xid;
  m_xembed_supported : bool;
  m_xembed : xembed_info;
  m_mapped : bool;
  m_hidden : bool;
  m_size : size;
  m_pos : position;
  m_desired_background : Z;
  m_surface : xcb_surface;
  m_bg_slice : option nat;
}.

Definition set_m_xembed_supported (b : bool) (c : tray_client) : tray_client :=
  {| m_name := m_name c; m_client := m_client c; m_wrapper := m_wrapper c;
     m_xembed_supported := b; m_xembed := m_xembed c;
     m_mapped := m_mapped c; m_hidden := m_hidden c; m_size := m_size c;
     m_pos := m_pos c; m_desired_background := m_desired_background c;
     m_surface := m_surface c; m_bg_slice := m_bg_slice c |}.

Definition set_m_xembed (i : xembed_info) (c : tray_client) : tray_client :=
  {| m_name := m_name c; m_client := m_client c; m_wrapper := m_wrapper c;
     m_xembed_supported := m_xembed_supported c; m_xembed := i;
     m_mapped := m_mapped c; m_hidden := m_hidden c; m_size := m_size c;
     m_pos := m_pos c; m_desired_background := m_desired_background c;
     m_surface := m_surface c; m_bg_slice := m_bg_slice c |}.

Definition set_m_mapped (b : bool) (c : tray_client) : tray_client :=
  {| m_name := m_name c; m_client := m_client c; m_wrapper := m_wrapper c;
     m_xembed_supported := m_xembed_supported c; m_xembed := m_xembed c;
     m_mapped := b; m_hidden := m_hidden c; m_size := m_size c;
     m_pos := m_pos c; m_desired_background := m_desired_background c;
     m_surface := m_surface c; m_bg_slice := m_bg_slice c |}.

Definition set_m_hidden (b : bool) (c : tray_client) : tray_client :=
  {| m_name := m_name c; m_client := m_client c; m_wrapper := m_wrapper c;
     m_xembed_supported := m_xembed_supported c; m_xembed := m_xembed c;
     m_mapped := m_mapped c; m_hidden := b; m_size := m_size c;
     m_pos := m_pos c; m_desired_background := m_desired_background c;
     m_surface := m_surface c; m_bg_slice := m_bg_slice c |}.

Definition set_m_pos (p : position) (c : tray_client) : tray_client :=
  {| m_name := m_name c; m_client := m_client c; m_wrapper := m_wrapper c;
     m_xembed_supported := m_xembed_supported c; m_xembed := m_xembed c;
     m_mapped := m_mapped c; m_hidden := m_hidden c; m_size := m_size c;
     m_pos := p; m_desired_background := m_desired_background c;
     m_surface := m_surface c; m_bg_slice := m_bg_slice c |}.

Definition set_m_bg_slice (s : option nat) (c : tray_client) : tray_client :=
  {| m_name := m_name c; m_client := m_client c; m_wrapper := m_wrapper c;
     m_xembed_supported := m_xembed_supported c; m_xembed := m_xembed c;
     m_mapped := m_mapped c; m_hidden := m_hidden c; m_size := m_size c;
     m_pos := m_pos c; m_desired_background := m_desired_background c;
     m_surface := m_surface c; m_bg_slice := s |}.

(** ** Requests and the connection *)

(** The window specification assembled by the [winspec(conn) << cw_...]
    chain of the constructor. *)
Record winspec := {
  cw_size_w : Z; cw_size_h : Z;
  cw_pos_x : Z; cw_pos_y : Z;
  cw_depth : Z;
  cw_visual : xid;
  cw_parent : xid;
  cw_class : Z;
  cw_params_border_pixel : Z;
  cw_params_backing_store : Z;
  cw_params_save_under : bool;
  cw_params_event_mask : Z;
  cw_params_colormap : xid;
}.

(** The payload of the synthetic [xcb_configure_notify_event_t]. *)
Record configure_notify_event := {
  cn_response_type : Z;
  cn_event : xid; cn_window : xid; cn_above_sibling : xid;
  cn_x : Z; cn_y : Z; cn_width : Z; cn_height : Z;
  cn_border_width : Z; cn_override_redirect : bool;
}.

(** Requests of the X protocol the client issues through [m_connection],
    and the two operations of the embedding protocol module ([xembed::unembed]
    and [xembed::notify_embedded]) that it calls on the connection. *)
Inductive request :=
| CreateWindow (wid : xid) (spec : winspec)
| CreatePixmap (depth : Z) (pid drawable : xid) (width height : Z)
| ChangeWindowAttributes (win : xid) (mask : Z) (values : list Z)
| CreateGC (gc drawable : xid) (mask : Z) (values : list Z)
| ConfigureWindow (win : xid) (mask : Z) (values : list Z)
| MapWindow (win : xid)
| UnmapWindow (win : xid)
| ReparentWindow (win parent : xid) (x y : Z)
| ChangeSaveSet (mode : Z) (win : xid)
| ClearArea (exposures : bool) (win : xid) (x y width height : Z)
| SendEvent (propagate : bool) (dest : xid) (mask : Z)
            (ev : configure_notify_event)
| DestroyWindow (win : xid)
| GetGeometry (drawable : xid)
| GetWindowAttributes (win : xid)
| Unembed (win new_parent : xid)
| NotifyEmbedded (win embedder : xid) (version : Z).

(** Operations of the cairo context and surface used by [update_bg]. *)
Inductive cairo_op :=
| ContextClear
| SetOperatorSource
| SetSourceSlice (slice : option nat)
| SetOperatorOver
| SetSourceColor (argb : Z)
| ContextPaint
| SurfaceFlush.

(** What the outside world sees of the client, in order.  A checked request
    carries the server's verdict; an unchecked one is fire-and-forget. *)
Inductive event :=
| Checked (r : request) (rejected : bool)
| Unchecked (r : request) (rejected : bool)
| Observe (rect : xcb_rectangle_t) (win : xid) (slice : nat)
| Cairo (op : cairo_op)
| ConnectionFlush.

(** A window as the server knows it. *)
Record xwindow := {
  xw_parent : xid;
  xw_x : Z; xw_y : Z; xw_width : Z; xw_height : Z;
  xw_depth : Z; xw_visual : xid; xw_colormap : xid;
  xw_mapped : bool;
  xw_title : option string;
  xw_xembed_info : option xembed_info;
}.

(** Modelled from the spec: the windowing connection (x11/connection.hpp and
    the X server behind it) and the background provider
    (x11/background_manager.hpp) are collaborators outside the sources at
    hand.  The spec gives the connection synchronous requests, optionally
    error-checked, a root window handle and screen metadata, and gives the
    provider request-slice(rectangle, window) returning a slice handle.  The
    state below keeps the server's window table, the identifier allocator,
    the screen constants, the slices handed out so far and the trace of
    everything the client did. *)
Record world := {
  w_windows : gmap N xwindow;
  w_visuals : gset N;
  w_next_id : xid;
  w_root : xid;
  w_black_pixel : Z;
  w_slices : list (xcb_rectangle_t * xid);
  w_log : list event;
}.

Definition set_w_windows (m : gmap N xwindow) (w : world) : world :=
  {| w_windows := m; w_visuals := w_visuals w; w_next_id := w_next_id w;
     w_root := w_root w; w_black_pixel := w_black_pixel w;
     w_slices := w_slices w; w_log := w_log w |}.

Definition set_w_next_id (i : xid) (w : world) : world :=
  {| w_windows := w_windows w; w_visuals := w_visuals w; w_next_id := i;
     w_root := w_root w; w_black_pixel := w_black_pixel w;
     w_slices := w_slices w; w_log := w_log w |}.

Definition set_w_slices (l : list (xcb_rectangle_t * xid)) (w : world) : world :=
  {| w_windows := w_windows w; w_visuals := w_visuals w;
     w_next_id := w_next_id w; w_root := w_root w;
     w_black_pixel := w_black_pixel w; w_slices := l; w_log := w_log w |}.

Definition log_event (e : event) (w : world) : world :=
  {| w_windows := w_windows w; w_visuals := w_visuals w;
     w_next_id := w_next_id w; w_root := w_root w;
     w_black_pixel := w_black_pixel w; w_slices := w_slices w;
     w_log := w_log w ++ [e] |}.

(** Several events at once. *)
Definition log_events (l : list event) (w : world) : world :=
  foldl (λ w e, log_event e w) w l.

(** ** Value lists *)

(** Modelled from the spec: [XCB_AUX_ADD_PARAM] (xcb-util) and
    [connection::pack_values] (x11/connection.cpp) are not part of the
    sources at hand; the spec only says the container is reconfigured "to
    (x, y) at target size".  A parameter block is the array of 32 bit words
    the macro writes into: it stores the value in the word of the member and
    sets the bit of that word in the mask.  [pack_values] copies the words
    whose bit is set to the front of the destination array, in bit order. *)
Definition XCB_AUX_ADD_PARAM (mask : Z) (params : list Z) (member : nat) (value : Z)
  : Z * list Z :=
  (Z.lor mask (Z.shiftl 1 (Z.of_nat member)), <[member := to_u32 value]> params).

Fixpoint pack_from (idx : list nat) (dest_i : nat) (mask : Z) (src dest : list Z)
  : list Z :=
  match idx with
  | [] => dest
  | i :: idx' =>
      if Z.testbit mask (Z.of_nat i)
      then pack_from idx' (S dest_i) mask src (<[dest_i := src !!! i]> dest)
      else pack_from idx' dest_i mask src dest
  end.

Definition pack_values (mask : Z) (src dest : list Z) : list Z :=
  pack_from (seq 0 32) 0 mask src dest.

(** The members whose bit is set in a mask, in increasing order, and the
    part of a packed array a request with that mask sends. *)
Definition mask_members (mask : Z) : list nat :=
  filter (λ i, Is_true (Z.testbit mask (Z.of_nat i))) (seq 0 32).

Definition value_list (mask : Z) (values : list Z) : list Z :=
  take (length (mask_members mask)) values.

(** Word offsets of the members used below:
    [xcb_params_configure_window_t] is [x, y, width, height, border_width,
    sibling, stack_mode]; in [xcb_params_cw_t] the event mask is word 11; in
    [xcb_params_gc_t] graphics_exposures is word 16. *)
Definition cfg_x : nat := 0.
Definition cfg_y : nat := 1.
Definition cfg_width : nat := 2.
Definition cfg_height : nat := 3.
Definition cw_event_mask : nat := 11.
Definition gc_graphics_exposures : nat := 16.

Definition zeroed (n : nat) : list Z := replicate n 0.

(** Constants of the X protocol. *)
Definition XCB_WINDOW_CLASS_INPUT_OUTPUT : Z := 1.
Definition XCB_BACKING_STORE_WHEN_MAPPED : Z := 1.
Definition XCB_EVENT_MASK_EXPOSURE : Z := 32768.
Definition XCB_EVENT_MASK_STRUCTURE_NOTIFY : Z := 131072.
Definition XCB_EVENT_MASK_SUBSTRUCTURE_REDIRECT : Z := 1048576.
Definition XCB_EVENT_MASK_PROPERTY_CHANGE : Z := 4194304.
Definition XCB_CW_BACK_PIXMAP : Z := 1.
Definition XCB_SET_MODE_INSERT : Z := 0.
Definition XCB_CONFIGURE_NOTIFY : Z := 22.

(** ** The server's reading of a request *)

Definition set_xw_geometry (member : nat) (v : Z) (xw : xwindow) : xwindow :=
  {| xw_parent := xw_parent xw;
     xw_x := if decide (member = cfg_x) then to_i16 v else xw_x xw;
     xw_y := if decide (member = cfg_y) then to_i16 v else xw_y xw;
     xw_width := if decide (member = cfg_width) then to_u16 v else xw_width xw;
     xw_height := if decide (member = cfg_height) then to_u16 v else xw_height xw;
     xw_depth := xw_depth xw; xw_visual := xw_visual xw;
     xw_colormap := xw_colormap xw; xw_mapped := xw_mapped xw;
     xw_title := xw_title xw; xw_xembed_info := xw_xembed_info xw |}.

Definition set_xw_mapped (b : bool) (xw : xwindow) : xwindow :=
  {| xw_parent := xw_parent xw; xw_x := xw_x xw; xw_y := xw_y xw;
     xw_width := xw_width xw; xw_height := xw_height xw;
     xw_depth := xw_depth xw; xw_visual := xw_visual xw;
     xw_colormap := xw_colormap xw; xw_mapped := b;
     xw_title := xw_title xw; xw_xembed_info := xw_xembed_info xw |}.

Definition set_xw_parent (p : xid) (x y : Z) (xw : xwindow) : xwindow :=
  {| xw_parent := p; xw_x := to_i16 x; xw_y := to_i16 y;
     xw_width := xw_width xw; xw_height := xw_height xw;
     xw_depth := xw_depth xw; xw_visual := xw_visual xw;
     xw_colormap := xw_colormap xw; xw_mapped := xw_mapped xw;
     xw_title := xw_title xw; xw_xembed_info := xw_xembed_info xw |}.

(** ConfigureWindow: the value list holds one value per set mask bit, lowest
    bit first; x and y are INT16, width and height CARD16. *)
Definition apply_configure (mask : Z) (values : list Z) (xw : xwindow) : xwindow :=
  foldl (λ acc mv, set_xw_geometry mv.1 mv.2 acc) xw
        (zip (mask_members mask) values).

Definition created_window (spec : winspec) : xwindow :=
  {| xw_parent := cw_parent spec;
     xw_x := to_i16 (cw_pos_x spec); xw_y := to_i16 (cw_pos_y spec);
     xw_width := to_u16 (cw_size_w spec); xw_height := to_u16 (cw_size_h spec);
     xw_depth := cw_depth spec; xw_visual := cw_visual spec;
     xw_colormap := cw_params_colormap spec; xw_mapped := false;
     xw_title := None; xw_xembed_info := None |}.

(** Whether window [k] is an inferior of [win]: its parent is [win], or the
    parent is itself an inferior of [win].  The chain of parents inside the
    table is no longer than the table, which bounds the search. *)
Fixpoint inferior_of (ws : gmap N xwindow) (fuel : nat) (k win : xid) : bool :=
  match fuel with
  | O => false
  | S fuel' =>
      match ws !! k with
      | None => false
      | Some xw =>
          bool_decide (xw_parent xw = win)
          || inferior_of ws fuel' (xw_parent xw) win
      end
  end.

(** DestroyWindow destroys the window and all its inferiors. *)
Definition destroy_subtree (win : xid) (ws : gmap N xwindow) : gmap N xwindow :=
  filter (λ kv : N * xwindow,
            kv.1 ≠ win ∧ inferior_of ws (base.size ws) kv.1 win = false) ws.

(** The effect of an accepted request on the window table.  Requests that
    touch no geometry, mapping state or parent leave it alone. *)
Definition apply_request (r : request) (ws : gmap N xwindow) : gmap N xwindow :=
  match r with
  | CreateWindow wid spec => <[wid := created_window spec]> ws
  | ConfigureWindow win mask values => alter (apply_configure mask values) win ws
  | MapWindow win => alter (set_xw_mapped true) win ws
  | UnmapWindow win => alter (set_xw_mapped false) win ws
  | ReparentWindow win parent x y => alter (set_xw_parent parent x y) win ws
  | Unembed win new_parent =>
      alter (λ xw, set_xw_parent new_parent 0 0 (set_xw_mapped false xw)) win ws
  | DestroyWindow win => destroy_subtree win ws
  | _ => ws
  end.

(** ** Exceptions and the state monad of the embedding *)

Inductive exception :=
| RequestFailed (r : request)
| RuntimeError (what : string).

Inductive result (A : Type) :=
| Ok (a : A)
| Throw (e : exception).
Arguments Ok {A} a.
Arguments Throw {A} e.

(** A computation over a state [S] that returns or throws.  A throw keeps the
    state reached so far: C++ does not roll members or the server back. *)
Definition SE (S A : Type) : Type := S → result A * S.

#[export] Instance SE_ret {S} : MRet (SE S) := λ A a s, (Ok a, s).

#[export] Instance SE_bind {S} : MBind (SE S) := λ A B f m s,
  match m s with
  | (Ok a, s') => f a s'
  | (Throw e, s') => (Throw e, s')
  end.

Definition throw {S A} (e : exception) : SE S A := λ s, (Throw e, s).

(** Code that only talks to the connection runs over the world; a non-const
    member function also carries [*this]. *)
Abbreviation W := (SE world).
Abbreviation M := (SE (tray_client * world)).

Definition this : M tray_client := λ s, (Ok s.1, s).

Definition update_this (f : tray_client → tray_client) : M unit :=
  λ s, (Ok tt, (f s.1, s.2)).

(** Calling a const member function (or the connection) from a non-const one:
    the object is passed by const reference and comes back as it was. *)
Definition call {A} (f : tray_client → W A) : M A :=
  λ s, let (r, w') := f s.1 s.2 in (r, (s.1, w')).

Section Connection.

(** The server's verdict on a request, given everything that happened before
    it.  Nothing is assumed about it: every statement below holds for every
    way the server may fail. *)
Variable rejects : list event → request → bool.

(** [connection::id], the printable form of a window handle. *)
Variable id : xid → string.

(** *** Primitives of the connection *)

(** An error-checked request ([..._checked]): a rejected request throws and
    leaves the server as it was. *)
Definition checked (r : request) : W unit := λ w,
  if rejects (w_log w) r
  then (Throw (RequestFailed r), log_event (Checked r true) w)
  else (Ok tt, log_event (Checked r false)
                 (set_w_windows (apply_request r (w_windows w)) w)).

(** A request sent without waiting for its reply: a rejection goes unseen. *)
Definition unchecked (r : request) : W unit := λ w,
  if rejects (w_log w) r
  then (Ok tt, log_event (Unchecked r true) w)
  else (Ok tt, log_event (Unchecked r false)
                 (set_w_windows (apply_request r (w_windows w)) w)).

(** A request whose reply the caller reads: it throws when the server
    rejects it or the window is gone. *)
Definition query (r : request) (win : xid) : W xwindow := λ w,
  match w_windows w !! win with
  | Some xw =>
      if rejects (w_log w) r
      then (Throw (RequestFailed r), log_event (Checked r true) w)
      else (Ok xw, log_event (Checked r false) w)
  | None => (Throw (RequestFailed r), log_event (Checked r true) w)
  end.

Definition generate_id : W xid := λ w,
  (Ok (w_next_id w), set_w_next_id (w_next_id w + 1)%N w).

Definition root : W xid := λ w, (Ok (w_root w), w).
Definition screen_black_pixel : W Z := λ w, (Ok (w_black_pixel w), w).

Definition visual_type_for_id (v : xid) : W (option xid) := λ w,
  (Ok (if decide (v ∈ w_visuals w) then Some v else None), w).

Definition flush : W unit := λ w, (Ok tt, log_event ConnectionFlush w).

Definition cairo (op : cairo_op) : W unit := λ w,
  (Ok tt, log_event (Cairo op) w).

Definition get_geometry (win : xid) : W xwindow := query (GetGeometry win) win.
Definition get_window_attributes (win : xid) : W xwindow :=
  query (GetWindowAttributes win) win.

Definition create_pixmap_checked (depth : Z) (pid drawable : xid) (width height : Z)
  : W unit :=
  checked (CreatePixmap depth pid drawable (to_u16 width) (to_u16 height)).
Definition change_window_attributes_checked (win : xid) (mask : Z) (values : list Z)
  : W unit :=
  checked (ChangeWindowAttributes win mask (value_list mask values)).
Definition create_gc_checked (gc drawable : xid) (mask : Z) (values : list Z)
  : W unit :=
  checked (CreateGC gc drawable mask (value_list mask values)).
Definition configure_window_checked (win : xid) (mask : Z) (values : list Z)
  : W unit :=
  checked (ConfigureWindow win mask (value_list mask values)).
Definition map_window_checked (win : xid) : W unit := checked (MapWindow win).
Definition unmap_window_checked (win : xid) : W unit := checked (UnmapWindow win).
Definition reparent_window_checked (win parent : xid) (x y : Z) : W unit :=
  checked (ReparentWindow win parent x y).
Definition change_save_set_checked (mode : Z) (win : xid) : W unit :=
  checked (ChangeSaveSet mode win).
Definition clear_area_checked (exposures : bool) (win : xid) (x y width height : Z)
  : W unit :=
  checked (ClearArea exposures win x y (to_u16 width) (to_u16 height)).
Definition send_event_checked (propagate : bool) (dest : xid) (mask : Z)
    (ev : configure_notify_event) : W unit :=
  checked (SendEvent propagate dest mask ev).
Definition destroy_window (win : xid) : W unit := unchecked (DestroyWindow win).

(** Modelled from the spec: [winspec] (x11/winspec.hpp) is not part of the
    sources at hand.  The spec has construction "create the container window
    as a child of the parent with those exact values" and abort on any
    request failure: flushing the specification allocates the window id and
    issues the error-checked CreateWindow. *)
Definition winspec_flush (spec : winspec) : W xid :=
  wid ← generate_id;
  checked (CreateWindow wid spec);;
  mret wid.

(** Modelled from the spec: [ewmh_util::get_wm_name] (x11/ewmh.hpp) is not
    part of the sources at hand.  The spec has get-display-name(window)
    return a string, a missing title property yielding a default title. *)
Definition get_wm_name (win : xid) : W string := λ w,
  (Ok (default "" (w_windows w !! win ≫= xw_title)), w).

(** Modelled from the spec: the embedding protocol module (x11/xembed.hpp) is
    not part of the sources at hand.  The spec gives it
    read-info(connection, window) → (supported?, info), which yields
    unsupported when the property is absent; unembed(connection, window,
    new-parent), whose failure destruction must tolerate without throwing;
    and send-embedded-notification(connection, window, container, version). *)
Definition xembed_query (win : xid) (data : xembed_info) : W (bool * xembed_info) :=
  λ w, match w_windows w !! win ≫= xw_xembed_info with
       | Some i => (Ok (true, i), w)
       | None => (Ok (false, data), w)
       end.

Definition xembed_unembed (win new_parent : xid) : W unit :=
  unchecked (Unembed win new_parent).

Definition xembed_notify_embedded (win embedder : xid) (version : Z) : W unit :=
  unchecked (NotifyEmbedded win embedder version).

(** Modelled from the spec: [background_manager::observe]
    (x11/background_manager.hpp) is not part of the sources at hand.  The
    spec has request-slice(rectangle, window) return a slice handle owned by
    the provider: every call hands out a new slice. *)
Definition background_manager_observe (rect : xcb_rectangle_t) (win : xid) : W nat :=
  λ w, let i := length (w_slices w) in
       (Ok i, log_event (Observe rect win i)
                (set_w_slices (w_slices w ++ [(rect, win)]) w)).

(** *** Member functions of [tray_client] *)

Definition name (c : tray_client) : string :=
  "tray_client(" +:+ id (m_client c) +:+ ", " +:+ m_name c +:+ ")".

Definition width (c : tray_client) : Z := size_w (m_size c).
Definition height (c : tray_client) : Z := size_h (m_size c).

Definition embedder (c : tray_client) : xid := m_wrapper c.
Definition client (c : tray_client) : xid := m_client c.

Definition clear_window (c : tray_client) : W unit :=
  clear_area_checked false (embedder c) 0 0 (width c) (height c);;
  clear_area_checked true (client c) 0 0 (width c) (height c).

Definition update_client_attributes (c : tray_client) : W unit :=
  let configure_mask := 0 in
  let configure_values := zeroed 32 in
  let configure_params := zeroed 15 in
  let '(configure_mask, configure_params) :=
    XCB_AUX_ADD_PARAM configure_mask configure_params cw_event_mask
      (Z.lor XCB_EVENT_MASK_PROPERTY_CHANGE XCB_EVENT_MASK_STRUCTURE_NOTIFY) in
  let configure_values := pack_values configure_mask configure_params configure_values in
  change_window_attributes_checked (client c) configure_mask configure_values.

Definition reparent (c : tray_client) : W unit :=
  reparent_window_checked (client c) (embedder c) 0 0.

(** [match] in the source. *)
Definition match_ (c : tray_client) (win : xid) : bool :=
  bool_decide (win = m_client c).

(** The getter [mapped()] and the setter [mapped(bool)]. *)
Definition mapped (c : tray_client) : bool := m_mapped c.

Definition mapped_set (state : bool) : M unit :=
  c ← this;
  if negb (eqb (m_mapped c) state)
  then update_this (set_m_mapped state)
  else mret tt.

Definition hidden (state : bool) : M unit :=
  update_this (set_m_hidden state).

Definition is_xembed_supported (c : tray_client) : bool := m_xembed_supported c.

Definition get_xembed (c : tray_client) : xembed_info := m_xembed c.

Definition should_be_mapped (c : tray_client) : bool :=
  if m_hidden c then false
  else if is_xembed_supported c then is_mapped (m_xembed c)
  else true.

Definition query_xembed : M unit :=
  r ← call (λ c, xembed_query (m_client c) (m_xembed c));
  update_this (set_m_xembed r.2);;
  update_this (set_m_xembed_supported r.1).

Definition notify_xembed (c : tray_client) : W unit :=
  if is_xembed_supported c
  then xembed_notify_embedded (client c) (embedder c) (get_version (m_xembed c))
  else mret tt.

Definition add_to_save_set (c : tray_client) : W unit :=
  change_save_set_checked XCB_SET_MODE_INSERT (client c).

Definition ensure_state (c : tray_client) : W unit :=
  let new_state := should_be_mapped c in
  if eqb new_state (m_mapped c) then mret tt
  else if new_state then
    map_window_checked (embedder c);;
    map_window_checked (client c)
  else
    unmap_window_checked (client c);;
    unmap_window_checked (embedder c).

Definition configure_notify (c : tray_client) : W unit :=
  let notify :=
    {| cn_response_type := XCB_CONFIGURE_NOTIFY;
       cn_event := client c; cn_window := client c;
       cn_override_redirect := false; cn_above_sibling := 0%N;
       cn_x := 0; cn_y := 0;
       cn_width := to_u16 (size_w (m_size c));
       cn_height := to_u16 (size_h (m_size c));
       cn_border_width := 0 |} in
  let mask := XCB_EVENT_MASK_STRUCTURE_NOTIFY in
  send_event_checked false (client c) mask notify.

Definition update_bg (c : tray_client) : W unit :=
  cairo ContextClear;;
  cairo SetOperatorSource;;
  cairo (SetSourceSlice (m_bg_slice c));;
  cairo ContextPaint;;
  cairo SetOperatorOver;;
  cairo (SetSourceColor (m_desired_background c));;
  cairo ContextPaint;;
  cairo SurfaceFlush;;
  clear_window c;;
  flush.

Definition observe_background : M unit :=
  c ← this;
  let rect := {| rect_x := 0; rect_y := 0;
                 rect_width := to_u16 (size_w (m_size c));
                 rect_height := to_u16 (size_h (m_size c)) |} in
  slice ← call (λ c, background_manager_observe rect (embedder c));
  update_this (set_m_bg_slice (Some slice));;
  call update_bg.

Definition set_position (x y : Z) : M unit :=
  c ← this;
  let new_pos := {| pos_x := x; pos_y := y |} in
  if position_eqb new_pos (m_pos c) then mret tt
  else
    update_this (set_m_pos new_pos);;
    c ← this;
    let configure_mask := 0 in
    let configure_values := zeroed 32 in
    let configure_params := zeroed 7 in
    let '(configure_mask, configure_params) :=
      XCB_AUX_ADD_PARAM configure_mask configure_params cfg_width (size_w (m_size c)) in
    let '(configure_mask, configure_params) :=
      XCB_AUX_ADD_PARAM configure_mask configure_params cfg_height (size_h (m_size c)) in
    let '(configure_mask, configure_params) :=
      XCB_AUX_ADD_PARAM configure_mask configure_params cfg_x x in
    let '(configure_mask, configure_params) :=
      XCB_AUX_ADD_PARAM configure_mask configure_params cfg_y y in
    let configure_values := pack_values configure_mask configure_params configure_values in
    call (λ c, configure_window_checked (embedder c) configure_mask configure_values);;
    let configure_mask := 0 in
    let '(configure_mask, configure_params) :=
      XCB_AUX_ADD_PARAM configure_mask configure_params cfg_width (size_w (m_size c)) in
    let '(configure_mask, configure_params) :=
      XCB_AUX_ADD_PARAM configure_mask configure_params cfg_height (size_h (m_size c)) in
    let '(configure_mask, configure_params) :=
      XCB_AUX_ADD_PARAM configure_mask configure_params cfg_x 0 in
    let '(configure_mask, configure_params) :=
      XCB_AUX_ADD_PARAM configure_mask configure_params cfg_y 0 in
    let configure_values := pack_values configure_mask configure_params configure_values in
    call (λ c, configure_window_checked (client c) configure_mask configure_values);;
    observe_background.

(** Running the body of the constructor on the members initialised so far:
    when it throws, no object comes into being. *)
Definition construct_with (body : M unit) (c : tray_client) : W tray_client :=
  λ w, match body (c, w) with
       | (Ok _, (c', w')) => (Ok c', w')
       | (Throw e, (_, w')) => (Throw e, w')
       end.

(** Modelled from the spec: the default member initialisers are in
    x11/tray_client.hpp, which is not part of the sources at hand.  By the
    spec the mapped state is false until the first state-sync, nothing is
    hidden and the protocol unsupported before the owner says otherwise;
    the cached position starts at the origin and the slice pointer null. *)
Definition initial_members (name : string) (win wrapper : xid) (s : size)
    (desired_background : Z) (surface : xcb_surface) : tray_client :=
  {| m_name := name; m_client := win; m_wrapper := wrapper;
     m_xembed_supported := false;
     m_xembed := {| xi_version := 0; xi_flags := 0 |};
     m_mapped := false; m_hidden := false; m_size := s;
     m_pos := {| pos_x := 0; pos_y := 0 |};
     m_desired_background := desired_background;
     m_surface := surface; m_bg_slice := None |}.

(** [tray_client::tray_client].  The [try]/[catch] blocks log and rethrow;
    they change nothing of the control flow. *)
Definition tray_client_ctor (parent win : xid) (s : size) (desired_background : Z)
  : W tray_client :=
  name ← get_wm_name win;
  geom ← get_geometry win;
  attrs ← get_window_attributes win;
  let client_depth := xw_depth geom in
  let client_visual := xw_visual attrs in
  let client_colormap := xw_colormap attrs in
  black_pixel ← screen_black_pixel;
  wrapper ← winspec_flush
    {| cw_size_w := size_w s; cw_size_h := size_h s;
       cw_pos_x := 0; cw_pos_y := 0;
       cw_depth := client_depth;
       cw_visual := client_visual;
       cw_parent := parent;
       cw_class := XCB_WINDOW_CLASS_INPUT_OUTPUT;
       cw_params_border_pixel := black_pixel;
       cw_params_backing_store := XCB_BACKING_STORE_WHEN_MAPPED;
       cw_params_save_under := true;
       cw_params_event_mask :=
         Z.lor (Z.lor (Z.lor XCB_EVENT_MASK_SUBSTRUCTURE_REDIRECT
                             XCB_EVENT_MASK_PROPERTY_CHANGE)
                      XCB_EVENT_MASK_STRUCTURE_NOTIFY)
               XCB_EVENT_MASK_EXPOSURE;
       cw_params_colormap := client_colormap |};
  pixmap ← generate_id;
  create_pixmap_checked client_depth pixmap wrapper (size_w s) (size_h s);;
  change_window_attributes_checked wrapper XCB_CW_BACK_PIXMAP [Z.of_N pixmap];;
  gc ← generate_id;
  let params := zeroed 23 in
  let mask := 0 in
  let '(mask, params) := XCB_AUX_ADD_PARAM mask params gc_graphics_exposures 1 in
  let values := pack_values mask params (zeroed 32) in
  create_gc_checked gc pixmap mask values;;
  visual ← visual_type_for_id client_visual;
  match visual with
  | None => throw (RuntimeError "Failed to get root visual for tray background")
  | Some v =>
      construct_with observe_background
        (initial_members name win wrapper s desired_background
           {| sf_pixmap := pixmap; sf_visual := v;
              sf_width := size_w s; sf_height := size_h s |})
  end.

(** [tray_client::~tray_client]. *)
Definition tray_client_dtor (c : tray_client) : W unit :=
  (if bool_decide (m_client c ≠ XCB_NONE)
   then r ← root; xembed_unembed (m_client c) r
   else mret tt);;
  (if bool_decide (m_wrapper c ≠ XCB_NONE)
   then destroy_window (m_wrapper c)
   else mret tt).

(** *** The interface as the owner drives it *)

(** The member functions the tray manager calls on a live client. *)
Inductive method :=
| call_name
| call_width
| call_height
| call_clear_window
| call_update_client_attributes
| call_reparent
| call_match (win : xid)
| call_mapped
| call_mapped_set (state : bool)
| call_hidden (state : bool)
| call_should_be_mapped
| call_embedder
| call_client
| call_query_xembed
| call_is_xembed_supported
| call_get_xembed
| call_notify_xembed
| call_add_to_save_set
| call_ensure_state
| call_set_position (x y : Z)
| call_configure_notify.

(** A pure accessor run for its (discarded) value. *)
Definition observe_only {A} (f : tray_client → A) : M unit :=
  c ← this; let _ := f c in mret tt.

Definition invoke (m : method) : M unit :=
  match m with
  | call_name => observe_only name
  | call_width => observe_only width
  | call_height => observe_only height
  | call_clear_window => call clear_window
  | call_update_client_attributes => call update_client_attributes
  | call_reparent => call reparent
  | call_match win => observe_only (λ c, match_ c win)
  | call_mapped => observe_only mapped
  | call_mapped_set state => mapped_set state
  | call_hidden state => hidden state
  | call_should_be_mapped => observe_only should_be_mapped
  | call_embedder => observe_only embedder
  | call_client => observe_only client
  | call_query_xembed => query_xembed
  | call_is_xembed_supported => observe_only is_xembed_supported
  | call_get_xembed => observe_only get_xembed
  | call_notify_xembed => call notify_xembed
  | call_add_to_save_set => call add_to_save_set
  | call_ensure_state => call ensure_state
  | call_set_position x y => set_position x y
  | call_configure_notify => call configure_notify
  end.

(** A run of calls by the owner, which catches what a call throws and goes
    on with the next one. *)
Definition run (ms : list method) (s : tray_client * world) : tray_client * world :=
  foldl (λ s m, (invoke m s).2) s ms.

End Connection.


(** ** Sample data *)

Module Sample.

(** A server that accepts everything, and servers that reject one kind of
    request. *)
Definition accept_all : list event → request → bool := λ _ _, false.

Definition reject_all : list event → request → bool := λ _ _, true.

Definition reject_configure : list event → request → bool := λ _ r,
  match r with ConfigureWindow _ _ _ => true | _ => false end.

Definition reject_clear_area : list event → request → bool := λ _ r,
  match r with ClearArea _ _ _ _ _ _ => true | _ => false end.

Definition plain_id : xid → string := λ _, "0x0".

(** The bar window 2 on root 1 and a 16x16 icon window 7 that carries no
    embedding-info property. *)
Definition bar_window : xwindow :=
  {| xw_parent := 1%N; xw_x := 0; xw_y := 0; xw_width := 1920; xw_height := 24;
     xw_depth := 32; xw_visual := 40%N; xw_colormap := 41%N;
     xw_mapped := true; xw_title := Some "bar"; xw_xembed_info := None |}.

Definition icon_window : xwindow :=
  {| xw_parent := 1%N; xw_x := 300; xw_y := 200; xw_width := 16; xw_height := 16;
     xw_depth := 24; xw_visual := 33%N; xw_colormap := 32%N;
     xw_mapped := false; xw_title := Some "applet"; xw_xembed_info := None |}.

Definition world0 : world :=
  {| w_windows := <[7%N := icon_window]> (<[2%N := bar_window]> ∅);
     w_visuals := {[33%N; 40%N]};
     w_next_id := 100%N; w_root := 1%N; w_black_pixel := 0;
     w_slices := []; w_log := [] |}.

Definition size22 : size := {| size_w := 22; size_h := 22 |}.

Definition background : Z := 4280295456.

(** The client the constructor builds for the icon window on an accepting
    server, and the world it leaves behind. *)
Definition client1 : tray_client :=
  set_m_bg_slice (Some 0%nat)
    (initial_members "applet" 7%N 100%N size22 background
       {| sf_pixmap := 101%N; sf_visual := 33%N;
          sf_width := 22; sf_height := 22 |}).

Definition world1 : world :=
  (tray_client_ctor accept_all 2%N 7%N size22 background world0).2.

(** The same client once the owner has recorded it as mapped, hidden it,
    or learnt that it speaks XEMBED and wants to be mapped. *)
Definition client1_mapped : tray_client := set_m_mapped true client1.

Definition client1_hidden : tray_client := set_m_hidden true client1_mapped.

Definition client1_xembed : tray_client :=
  set_m_xembed_supported true
    (set_m_xembed {| xi_version := 0; xi_flags := 1 |} client1).

(** A server that rejects the map of one window only, and a world in which
    the visual of the icon window is not known to the connection. *)
Definition reject_map_of (win : xid) : list event → request → bool := λ _ r,
  match r with MapWindow win' => bool_decide (win' = win) | _ => false end.

Definition world_no_visual : world :=
  {| w_windows := w_windows world0; w_visuals := {[40%N]};
     w_next_id := w_next_id world0; w_root := w_root world0;
     w_black_pixel := w_black_pixel world0; w_slices := w_slices world0;
     w_log := w_log world0 |}.



(** A client like [client1] whose target width does not fit 16 bits. *)
Definition client_wide : tray_client :=
  set_m_bg_slice (Some 0%nat)
    (initial_members "applet" 7%N 100%N {| size_w := 65558; size_h := 22 |}
       background
       {| sf_pixmap := 101%N; sf_visual := 33%N;
          sf_width := 65558; sf_height := 22 |}).

End Sample.


(** ** Reading the trace *)

(** The background refreshes recorded in a trace, oldest first. *)
Definition observations (l : list event) : list (xcb_rectangle_t * xid * nat) :=
  omap (λ e, match e with
             | Observe rect win slice => Some (rect, win, slice)
             | _ => None
             end) l.

(** The requests recorded in a trace, checked or not, queries apart. *)
Definition window_operations (l : list event) : list request :=
  omap (λ e, match e with
             | Checked (GetGeometry _) _ | Checked (GetWindowAttributes _) _ => None
             | Checked r _ | Unchecked r _ => Some r
             | _ => None
             end) l.

(** The ConfigureWindow request [set_position] builds for a window. *)
Definition configure_request (win : xid) (x y width height : Z) : request :=
  ConfigureWindow win 15 [to_u32 x; to_u32 y; to_u32 width; to_u32 height].

(** The drawing [update_bg] does before it clears the windows. *)
Definition composite_ops (c : tray_client) : list event :=
  [Cairo ContextClear; Cairo SetOperatorSource;
   Cairo (SetSourceSlice (m_bg_slice c)); Cairo ContextPaint;
   Cairo SetOperatorOver; Cairo (SetSourceColor (m_desired_background c));
   Cairo ContextPaint; Cairo SurfaceFlush].

(** The mask the parameter blocks of [set_position] accumulate. *)
Definition configure_mask_bits : Z :=
  Z.lor (Z.lor (Z.lor (Z.lor 0 (Z.shiftl 1 (Z.of_nat cfg_width)))
                      (Z.shiftl 1 (Z.of_nat cfg_height)))
               (Z.shiftl 1 (Z.of_nat cfg_x)))
        (Z.shiftl 1 (Z.of_nat cfg_y)).

(** What [update_bg] adds to a trace that ends in [before]: the drawing, the
    two ClearArea requests as far as the server accepts them, and the flush
    of the connection when both went through. *)
Definition update_bg_trace (rejects : list event → request → bool)
    (c : tray_client) (before : list event) : list event :=
  let drawn := before ++ composite_ops c in
  let q1 := ClearArea false (m_wrapper c) 0 0
              (to_u16 (size_w (m_size c))) (to_u16 (size_h (m_size c))) in
  let q2 := ClearArea true (m_client c) 0 0
              (to_u16 (size_w (m_size c))) (to_u16 (size_h (m_size c))) in
  composite_ops c ++
  Checked q1 (rejects drawn q1) ::
  (if rejects drawn q1 then []
   else Checked q2 (rejects (drawn ++ [Checked q1 false]) q2) ::
        (if rejects (drawn ++ [Checked q1 false]) q2 then []
         else [ConnectionFlush])).

(** Window dimensions are CARD16 in the X protocol. *)
Definition fits_x11 (s : size) : Prop :=
  0 ≤ size_w s < 2 ^ 16 ∧ 0 ≤ size_h s < 2 ^ 16.



Definition is_mapped_set (m : method) : bool :=
  match m with call_mapped_set _ => true | _ => false end.

(** A member function keeps a member when no run of it changes it, whether
    it returns or throws. *)
Definition keeps {A B} (member : tray_client → B) (m : M A) : Prop :=
  ∀ s, member (m s).2.1 = member s.1.

(** The members no member function assigns after construction. *)
Definition immutable_part (c : tray_client)
  : string * xid * xid * size * Z * xcb_surface :=
  (m_name c, m_client c, m_wrapper c, m_size c, m_desired_background c,
   m_surface c).

(** Requests that neither create nor destroy a window. *)
Definition steady_request (r : request) : bool :=
  match r with
  | CreateWindow _ _ | DestroyWindow _ => false
  | _ => true
  end.

Definition is_set_position (m : method) : bool :=
  match m with call_set_position _ _ => true | _ => false end.

(** The two requests of a visibility change, in the order [ensure_state]
    sends them. *)
Definition transition_requests (c : tray_client) (new_state : bool)
  : request * request :=
  if new_state
  then (MapWindow (m_wrapper c), MapWindow (m_client c))
  else (UnmapWindow (m_client c), UnmapWindow (m_wrapper c)).

(** A computation over the connection is quiet when it leaves the set of
    windows the server knows, the slices handed out and the background
    refreshes in the trace as they were. *)
Definition quiet {A} (m : W A) : Prop :=
  ∀ w, dom (w_windows (m w).2) =@{gset N} dom (w_windows w)
       ∧ w_slices (m w).2 = w_slices w
       ∧ observations (w_log (m w).2) = observations (w_log w).

(** * Properties *)

Create HintDb keeps.

Section Properties.

Variable rejects : list event → request → bool.
Variable id : xid → string.

(** ** Running the monad *)

Lemma bind_run {S A B} (m : SE S A) (f : A → SE S B) s :
  (m ≫= f) s = match m s with
               | (Ok a, s') => f a s'
               | (Throw e, s') => (Throw e, s')
               end.
Proof. reflexivity. Qed.

Lemma checked_log r w :
  w_log (checked rejects r w).2 = w_log w ++ [Checked r (rejects (w_log w) r)].
Proof. unfold checked. now destruct (rejects (w_log w) r). Qed.

Lemma unchecked_log r w :
  w_log (unchecked rejects r w).2 = w_log w ++ [Unchecked r (rejects (w_log w) r)].
Proof. unfold unchecked. now destruct (rejects (w_log w) r). Qed.

Lemma unchecked_returns r w : (unchecked rejects r w).1 = Ok tt.
Proof. unfold unchecked. now destruct (rejects (w_log w) r). Qed.

(** ** Members kept by member functions *)

Section Keeps.
Context {B : Type} (member : tray_client → B).

Lemma keeps_ret {A} (a : A) : keeps member (mret a).
Proof. now intros s. Qed.

Lemma keeps_this : keeps member this.
Proof. now intros s. Qed.

Lemma keeps_call {A} (f : tray_client → W A) : keeps member (call f).
Proof. intros s. unfold call. now destruct (f s.1 s.2). Qed.

Lemma keeps_update f :
  (∀ c, member (f c) = member c) → keeps member (update_this f).
Proof. intros Hf s. apply Hf. Qed.

Lemma keeps_bind {A C} (m : M A) (f : A → M C) :
  keeps member m → (∀ a, keeps member (f a)) → keeps member (m ≫= f).
Proof.
  intros Hm Hf s. rewrite bind_run. specialize (Hm s).
  destruct (m s) as [[a|e] s']; cbn [fst snd] in *.
  - now rewrite Hf.
  - exact Hm.
Qed.

Lemma keeps_observe_only {A} (f : tray_client → A) :
  keeps member (observe_only f).
Proof. now intros s. Qed.
End Keeps.

#[local] Hint Resolve keeps_ret keeps_this keeps_call keeps_observe_only : keeps.

Lemma observe_background_keeps {B} (member : tray_client → B) :
  (∀ s c, member (set_m_bg_slice s c) = member c) →
  keeps member (observe_background rejects).
Proof.
  intros H. unfold observe_background.
  apply keeps_bind; [apply keeps_this | intros c].
  cbv zeta.
  apply keeps_bind; [apply keeps_call | intros slice].
  apply keeps_bind; [apply keeps_update; intros; apply H | intros _].
  apply keeps_call.
Qed.

Lemma set_position_keeps {B} (member : tray_client → B) x y :
  (∀ s c, member (set_m_bg_slice s c) = member c) →
  (∀ p c, member (set_m_pos p c) = member c) →
  keeps member (set_position rejects x y).
Proof.
  intros Hs Hp. unfold set_position.
  apply keeps_bind; [apply keeps_this | intros c]. cbv zeta.
  destruct (position_eqb _ _); [apply keeps_ret |].
  apply keeps_bind; [apply keeps_update; intros; apply Hp | intros _].
  apply keeps_bind; [apply keeps_this | intros c'].
  unfold XCB_AUX_ADD_PARAM. cbv beta iota zeta.
  apply keeps_bind; [apply keeps_call | intros _].
  apply keeps_bind; [apply keeps_call | intros _].
  now apply observe_background_keeps.
Qed.

Lemma query_xembed_keeps {B} (member : tray_client → B) :
  (∀ i c, member (set_m_xembed i c) = member c) →
  (∀ b c, member (set_m_xembed_supported b c) = member c) →
  keeps member (query_xembed).
Proof.
  intros Hi Hb. unfold query_xembed.
  apply keeps_bind; [apply keeps_call | intros r].
  apply keeps_bind; [apply keeps_update; intros; apply Hi | intros _].
  apply keeps_update; intros; apply Hb.
Qed.

Lemma invoke_keeps_mapped m :
  is_mapped_set m = false → keeps m_mapped (invoke rejects id m).
Proof.
  destruct m; cbn [is_mapped_set invoke]; intros H;
    try discriminate; auto with keeps.
  - now apply keeps_update.
  - now apply query_xembed_keeps.
  - now apply set_position_keeps.
Qed.

Lemma run_app ms ms' s :
  run rejects id (ms ++ ms') s = run rejects id ms' (run rejects id ms s).
Proof. unfold run. apply foldl_app. Qed.

Lemma run_keeps_mapped ms s :
  Forall (λ m, is_mapped_set m = false) ms →
  m_mapped (run rejects id ms s).1 = m_mapped s.1.
Proof.
  intros H. revert s. induction H as [|m ms Hm _ IH]; intros s; [reflexivity|].
  change (run rejects id (m :: ms) s)
    with (run rejects id ms (invoke rejects id m s).2).
  rewrite IH. now apply invoke_keeps_mapped.
Qed.

Lemma mapped_set_writes b s : m_mapped (mapped_set b s).2.1 = b.
Proof.
  unfold mapped_set. rewrite bind_run. cbn [this fst snd].
  destruct s as [c w]. cbn [fst snd].
  destruct (m_mapped c) eqn:E, b; cbn; now rewrite ?E.
Qed.

Lemma should_be_mapped_set_m_mapped b c :
  should_be_mapped (set_m_mapped b c) = should_be_mapped c.
Proof. reflexivity. Qed.

(** ** Visibility *)

(** C3: [should_be_mapped] is false whenever the client is hidden; otherwise
    it is the mapped bit of the cached XEMBED info when the protocol is
    supported, and true when it is not. *)
Theorem should_be_mapped_policy (c : tray_client) :
  (m_hidden c = true → should_be_mapped c = false) ∧
  (m_hidden c = false → is_xembed_supported c = true →
     should_be_mapped c = is_mapped (get_xembed c)) ∧
  (m_hidden c = false → is_xembed_supported c = false →
     should_be_mapped c = true).
Proof.
  unfold should_be_mapped, get_xembed.
  repeat split; intros; repeat match goal with H : _ = _ |- _ => rewrite H end;
    reflexivity.
Qed.

(** C5: when [ensure_state] changes the visibility, mapping issues the map
    of the embedder window first and the map of the icon window second, and
    unmapping issues the unmap of the icon window first and the unmap of the
    embedder window second; the second request is issued exactly when the
    server accepted the first. *)
Theorem ensure_state_order (c : tray_client) (w : world) :
  should_be_mapped c ≠ m_mapped c →
  let first := if should_be_mapped c
               then MapWindow (embedder c) else UnmapWindow (client c) in
  let second := if should_be_mapped c
                then MapWindow (client c) else UnmapWindow (embedder c) in
  let verdict := rejects (w_log w) first in
  w_log (ensure_state rejects c w).2 =
    w_log w ++ Checked first verdict ::
      (if verdict then []
       else [Checked second (rejects (w_log w ++ [Checked first false]) second)]).
Proof.
  intros Hne. unfold ensure_state. cbv zeta.
  destruct (eqb (should_be_mapped c) (m_mapped c)) eqn:E.
  { apply eqb_prop in E. contradiction. }
  destruct (should_be_mapped c);
    unfold map_window_checked, unmap_window_checked; rewrite bind_run;
    unfold checked at 1;
    (destruct (rejects (w_log w) _) eqn:R1; [reflexivity|]);
    rewrite checked_log; cbn [log_event w_log];
    now rewrite <- app_assoc.
Qed.

(** ** Geometry *)

Lemma position_eqb_eq a b : position_eqb a b = true ↔ a = b.
Proof.
  destruct a as [ax ay], b as [bx by_]. unfold position_eqb. cbn [pos_x pos_y].
  rewrite andb_true_iff, !Z.eqb_eq. split.
  - now intros [-> ->].
  - intros H. now inversion H.
Qed.

Lemma position_eqb_neq a b : position_eqb a b = false ↔ a ≠ b.
Proof.
  rewrite <- position_eqb_eq. destruct (position_eqb a b); split; congruence.
Qed.


Lemma configure_mask_bits_eq : configure_mask_bits = 15.
Proof. reflexivity. Qed.

Lemma first_value_list vx vy vw vh :
  value_list configure_mask_bits
    (pack_values configure_mask_bits
       (<[cfg_y := vy]> (<[cfg_x := vx]> (<[cfg_height := vh]>
          (<[cfg_width := vw]> (zeroed 7)))))
       (zeroed 32))
  = [vx; vy; vw; vh].
Proof. reflexivity. Qed.

Lemma second_value_list vx vy vw vh ux uy uw uh :
  value_list configure_mask_bits
    (pack_values configure_mask_bits
       (<[cfg_y := uy]> (<[cfg_x := ux]> (<[cfg_height := uh]>
          (<[cfg_width := uw]>
             (<[cfg_y := vy]> (<[cfg_x := vx]> (<[cfg_height := vh]>
                (<[cfg_width := vw]> (zeroed 7)))))))))
       (pack_values configure_mask_bits
          (<[cfg_y := vy]> (<[cfg_x := vx]> (<[cfg_height := vh]>
             (<[cfg_width := vw]> (zeroed 7)))))
          (zeroed 32)))
  = [ux; uy; uw; uh].
Proof. reflexivity. Qed.

(** [observe_background] step by step. *)
Lemma observe_background_run c w :
  observe_background rejects (c, w) =
    let rect := {| rect_x := 0; rect_y := 0;
                   rect_width := to_u16 (width c);
                   rect_height := to_u16 (height c) |} in
    let slice := length (w_slices w) in
    let c' := set_m_bg_slice (Some slice) c in
    let w' := log_event (Observe rect (embedder c) slice)
                (set_w_slices (w_slices w ++ [(rect, embedder c)]) w) in
    ((update_bg rejects c' w').1, (c', (update_bg rejects c' w').2)).
Proof.
  unfold observe_background. rewrite bind_run. cbn [this fst snd]. cbv zeta.
  rewrite bind_run. unfold call at 1, background_manager_observe.
  cbn [fst snd]. rewrite bind_run. unfold update_this at 1. cbn [fst snd].
  unfold call. cbn [fst snd].
  now destruct (update_bg _ _ _).
Qed.

(** [set_position] to a new position, step by step. *)
Lemma set_position_changed x y c w :
  {| pos_x := x; pos_y := y |} ≠ m_pos c →
  set_position rejects x y (c, w) =
    let c1 := set_m_pos {| pos_x := x; pos_y := y |} c in
    let r1 := configure_request (embedder c) x y (width c) (height c) in
    let r2 := configure_request (client c) 0 0 (width c) (height c) in
    if rejects (w_log w) r1
    then (Throw (RequestFailed r1), (c1, log_event (Checked r1 true) w))
    else
      let w1 := log_event (Checked r1 false)
                  (set_w_windows (apply_request r1 (w_windows w)) w) in
      if rejects (w_log w1) r2
      then (Throw (RequestFailed r2), (c1, log_event (Checked r2 true) w1))
      else observe_background rejects
             (c1, log_event (Checked r2 false)
                    (set_w_windows (apply_request r2 (w_windows w1)) w1)).
Proof.
  intros H. apply position_eqb_neq in H. cbv zeta.
  unfold set_position. rewrite bind_run. cbn [this fst snd]. rewrite H.
  rewrite bind_run. unfold update_this at 1. cbn [fst snd].
  rewrite bind_run. cbn [this fst snd].
  unfold XCB_AUX_ADD_PARAM. cbv beta iota zeta.
  fold configure_mask_bits.
  rewrite bind_run. unfold call at 1, configure_window_checked at 1.
  cbn [fst snd]. rewrite first_value_list.
  unfold configure_request, width, height, embedder, client.
  rewrite configure_mask_bits_eq.
  change (m_size (set_m_pos _ c)) with (m_size c).
  change (m_wrapper (set_m_pos _ c)) with (m_wrapper c).
  unfold checked at 1.
  destruct (rejects (w_log w) _) eqn:R1; [reflexivity|].
  rewrite bind_run. unfold call at 1, configure_window_checked at 1.
  cbn [fst snd]. rewrite second_value_list.
  change (m_client (set_m_pos _ c)) with (m_client c).
  unfold checked at 1.
  destruct (rejects (w_log (log_event _ _)) _) eqn:R2; reflexivity.
Qed.

Lemma set_w_windows_id w : set_w_windows (w_windows w) w = w.
Proof. now destruct w. Qed.

Lemma log_events_log l w : w_log (log_events l w) = w_log w ++ l.
Proof.
  revert w. induction l as [|e l IH]; intros w; cbn [log_events foldl].
  - now rewrite app_nil_r.
  - fold (log_events l (log_event e w)). rewrite IH. cbn [log_event w_log].
    now rewrite <- app_assoc.
Qed.

Lemma log_events_frame l w :
  w_windows (log_events l w) = w_windows w
  ∧ w_slices (log_events l w) = w_slices w
  ∧ w_next_id (log_events l w) = w_next_id w
  ∧ w_root (log_events l w) = w_root w.
Proof.
  revert w. induction l as [|e l IH]; intros w; cbn [log_events foldl]; [done|].
  fold (log_events l (log_event e w)). now rewrite !(proj1 (IH _)),
    !(proj1 (proj2 (IH _))), !(proj1 (proj2 (proj2 (IH _)))),
    !(proj2 (proj2 (proj2 (IH _)))).
Qed.

(** [update_bg] step by step: it draws, clears the embedder window and then
    the icon window, and flushes when both requests went through. *)
Lemma update_bg_eq c w :
  update_bg rejects c w =
    let w8 := log_events (composite_ops c) w in
    let q1 := ClearArea false (m_wrapper c) 0 0
                (to_u16 (size_w (m_size c))) (to_u16 (size_h (m_size c))) in
    let q2 := ClearArea true (m_client c) 0 0
                (to_u16 (size_w (m_size c))) (to_u16 (size_h (m_size c))) in
    if rejects (w_log w8) q1
    then (Throw (RequestFailed q1), log_event (Checked q1 true) w8)
    else
      let w9 := log_event (Checked q1 false) w8 in
      if rejects (w_log w9) q2
      then (Throw (RequestFailed q2), log_event (Checked q2 true) w9)
      else (Ok tt, log_event ConnectionFlush (log_event (Checked q2 false) w9)).
Proof.
  cbv zeta. unfold update_bg, cairo.
  repeat (rewrite bind_run; cbv beta iota).
  change (log_event (Cairo SurfaceFlush) _) with (log_events (composite_ops c) w).
  unfold clear_window, clear_area_checked, embedder, client, width, height.
  rewrite bind_run. unfold checked at 1.
  destruct (rejects (w_log (log_events _ w)) _) eqn:R1; [reflexivity|].
  cbn [apply_request]. rewrite set_w_windows_id.
  unfold checked at 1.
  destruct (rejects (w_log (log_event _ _)) _) eqn:R2; [reflexivity|].
  cbn [apply_request]. now rewrite set_w_windows_id.
Qed.

Lemma update_bg_run c w :
  w_log (update_bg rejects c w).2 = w_log w ++ update_bg_trace rejects c (w_log w)
  ∧ w_windows (update_bg rejects c w).2 = w_windows w
  ∧ w_slices (update_bg rejects c w).2 = w_slices w.
Proof.
  rewrite update_bg_eq. cbv zeta. unfold update_bg_trace. cbv zeta.
  pose proof (log_events_frame (composite_ops c) w) as (Hw & Hs & _).
  cbn [log_event w_log]. rewrite !log_events_log.
  destruct (rejects (w_log w ++ composite_ops c) _) eqn:R1.
  { cbn [snd log_event w_log w_windows w_slices]. rewrite log_events_log.
    rewrite <- !app_assoc. now cbn [app]. }
  destruct (rejects ((w_log w ++ composite_ops c) ++ _) _) eqn:R2;
    cbn [snd log_event w_log w_windows w_slices]; rewrite log_events_log;
    rewrite <- !app_assoc; now cbn [app].
Qed.

Lemma observations_app l l' :
  observations (l ++ l') = observations l ++ observations l'.
Proof. unfold observations. apply omap_app. Qed.

Lemma observations_update_bg_trace c before :
  observations (update_bg_trace rejects c before) = [].
Proof.
  unfold update_bg_trace. cbv zeta. rewrite observations_app.
  now repeat destruct (rejects _ _).
Qed.

(** What a background refresh leaves behind. *)
Lemma observe_background_facts c w :
  let rect := {| rect_x := 0; rect_y := 0;
                 rect_width := to_u16 (width c);
                 rect_height := to_u16 (height c) |} in
  let slice := length (w_slices w) in
  let s' := (observe_background rejects (c, w)).2 in
  s'.1 = set_m_bg_slice (Some slice) c
  ∧ w_log s'.2 = w_log w ++ Observe rect (embedder c) slice ::
                   update_bg_trace rejects (set_m_bg_slice (Some slice) c)
                     (w_log w ++ [Observe rect (embedder c) slice])
  ∧ w_slices s'.2 = w_slices w ++ [(rect, embedder c)]
  ∧ w_windows s'.2 = w_windows w.
Proof.
  cbv zeta. rewrite observe_background_run. cbv zeta. cbn [fst snd].
  set (c' := set_m_bg_slice _ c). set (w' := log_event _ _).
  destruct (update_bg_run c' w') as (Hlog & Hwin & Hslices).
  rewrite Hlog, Hwin, Hslices. subst w'.
  cbn [log_event w_log w_windows w_slices set_w_slices].
  rewrite <- app_assoc. now cbn [app].
Qed.

Lemma to_u16_fits z : 0 ≤ z < 2 ^ 16 → to_u16 z = z.
Proof. intros H. unfold to_u16. now apply Z.mod_small. Qed.

(** [set_position] to a new position when the server accepts both
    ConfigureWindow requests: what remains is the background refresh. *)
Lemma set_position_accepted x y c w :
  {| pos_x := x; pos_y := y |} ≠ m_pos c →
  rejects (w_log w)
    (configure_request (embedder c) x y (width c) (height c)) = false →
  rejects (w_log w ++ [Checked (configure_request (embedder c) x y (width c)
                                  (height c)) false])
    (configure_request (client c) 0 0 (width c) (height c)) = false →
  set_position rejects x y (c, w) =
    observe_background rejects
      (set_m_pos {| pos_x := x; pos_y := y |} c,
       log_event
         (Checked (configure_request (client c) 0 0 (width c) (height c)) false)
         (set_w_windows
            (apply_request
               (configure_request (client c) 0 0 (width c) (height c))
               (apply_request
                  (configure_request (embedder c) x y (width c) (height c))
                  (w_windows w)))
            (log_event
               (Checked (configure_request (embedder c) x y (width c)
                           (height c)) false) w))).
Proof.
  intros H R1 R2. rewrite (set_position_changed x y c w H). cbv zeta.
  rewrite R1. cbn [log_event w_log set_w_windows]. rewrite R2.
  reflexivity.
Qed.

(** C8: [set_position] to the cached position returns at once: the object
    and the world are what they were, so no request is issued, no
    background slice is requested and no member changes. *)
Theorem set_position_unchanged_noop (x y : Z) (c : tray_client) (w : world) :
  {| pos_x := x; pos_y := y |} = m_pos c →
  set_position rejects x y (c, w) = (Ok tt, (c, w))
  ∧ window_operations (w_log (set_position rejects x y (c, w)).2.2)
    = window_operations (w_log w)
  ∧ observations (w_log (set_position rejects x y (c, w)).2.2)
    = observations (w_log w).
Proof.
  intros H. apply position_eqb_eq in H.
  assert (E : set_position rejects x y (c, w) = (Ok tt, (c, w))).
  { unfold set_position. rewrite bind_run. cbn [this fst snd]. now rewrite H. }
  now rewrite E.
Qed.

(** C7, as the code has it: [set_position] to a new position, with both
    ConfigureWindow requests accepted and a size that fits the protocol,
    asks the background manager for exactly one slice, for the rectangle
    (0, 0, width, height) of the embedder window, stores the slice it got in
    [m_bg_slice], and then redraws with that slice. *)
Theorem set_position_refreshes_background (x y : Z) (c : tray_client) (w : world) :
  {| pos_x := x; pos_y := y |} ≠ m_pos c →
  fits_x11 (m_size c) →
  let r1 := configure_request (embedder c) x y (width c) (height c) in
  let r2 := configure_request (client c) 0 0 (width c) (height c) in
  rejects (w_log w) r1 = false →
  rejects (w_log w ++ [Checked r1 false]) r2 = false →
  let rect := {| rect_x := 0; rect_y := 0;
                 rect_width := width c; rect_height := height c |} in
  let slice := length (w_slices w) in
  let s' := (set_position rejects x y (c, w)).2 in
  let issued := [Checked r1 false; Checked r2 false;
                 Observe rect (embedder c) slice] in
  observations (w_log s'.2) = observations (w_log w) ++ [(rect, embedder c, slice)]
  ∧ w_slices s'.2 = w_slices w ++ [(rect, embedder c)]
  ∧ m_bg_slice s'.1 = Some slice
  ∧ w_log s'.2 = w_log w ++ issued ++ update_bg_trace rejects s'.1 (w_log w ++ issued).
Proof.
  intros H [Hw Hh] r1 r2 R1 R2 rect slice.
  rewrite (set_position_accepted x y c w H R1 R2). fold r1 r2.
  set (c1 := set_m_pos _ c). set (w2 := log_event (Checked r2 false) _).
  assert (Hl2 : w_log w2 = w_log w ++ [Checked r1 false; Checked r2 false]).
  { subst w2. cbn [log_event w_log set_w_windows]. now rewrite <- app_assoc. }
  assert (Hs2 : w_slices w2 = w_slices w) by reflexivity.
  destruct (observe_background_facts c1 w2) as (Hc & Hlog & Hslices & _).
  revert Hc Hlog Hslices. cbv zeta.
  change (embedder c1) with (embedder c).
  change (width c1) with (width c). change (height c1) with (height c).
  unfold width, height in *. rewrite !to_u16_fits by assumption.
  rewrite Hl2, Hs2. fold slice. fold rect.
  intros Hc Hlog Hslices. rewrite Hc, Hlog, Hslices.
  cbn [m_bg_slice set_m_bg_slice].
  rewrite <- !app_assoc. cbn [app].
  repeat split.
  change (Checked r1 false :: Checked r2 false ::
          Observe rect (embedder c) slice :: ?l)
    with ([Checked r1 false; Checked r2 false;
           Observe rect (embedder c) slice] ++ l).
  rewrite !observations_app, observations_update_bg_trace.
  now rewrite app_nil_r.
Qed.

(** C10: [set_position] stores the new position before it issues its first
    request.  When the call throws, whichever request failed, the cached
    position is the new one although the call did not complete; when the
    first ConfigureWindow is the request that fails, neither window has been
    reconfigured and nothing else has been sent. *)
Theorem set_position_not_atomic (x y : Z) (c : tray_client) (w : world) (e : exception) :
  {| pos_x := x; pos_y := y |} ≠ m_pos c →
  (set_position rejects x y (c, w)).1 = Throw e →
  let s' := (set_position rejects x y (c, w)).2 in
  let r1 := configure_request (embedder c) x y (width c) (height c) in
  m_pos s'.1 = {| pos_x := x; pos_y := y |}
  ∧ m_pos s'.1 ≠ m_pos c
  ∧ (rejects (w_log w) r1 = true →
       e = RequestFailed r1
       ∧ w_windows s'.2 = w_windows w
       ∧ w_log s'.2 = w_log w ++ [Checked r1 true]).
Proof.
  intros H Hthrow. cbv zeta.
  assert (Hpos : m_pos (set_position rejects x y (c, w)).2.1
                 = {| pos_x := x; pos_y := y |}).
  { rewrite (set_position_changed x y c w H). cbv zeta.
    destruct (rejects (w_log w) _); [reflexivity|].
    destruct (rejects (w_log _) _); [reflexivity|].
    rewrite observe_background_run. reflexivity. }
  split; [exact Hpos|]. split; [now rewrite Hpos|].
  intros R1. revert Hthrow.
  rewrite (set_position_changed x y c w H). cbv zeta. rewrite R1.
  cbn [fst snd]. intros [= <-]. now repeat split.
Qed.

(** ** The mapped flag *)

(** [ensure_state] step by step. *)
Lemma ensure_state_eq c w :
  ensure_state rejects c w =
    if eqb (should_be_mapped c) (m_mapped c) then (Ok tt, w)
    else
      if rejects (w_log w) (transition_requests c (should_be_mapped c)).1
      then (Throw (RequestFailed (transition_requests c (should_be_mapped c)).1),
            log_event (Checked (transition_requests c (should_be_mapped c)).1 true) w)
      else checked rejects (transition_requests c (should_be_mapped c)).2
             (log_event (Checked (transition_requests c (should_be_mapped c)).1 false)
                (set_w_windows
                   (apply_request (transition_requests c (should_be_mapped c)).1
                      (w_windows w)) w)).
Proof.
  unfold ensure_state, transition_requests, embedder, client. cbv zeta.
  destruct (eqb _ _); [reflexivity|].
  destruct (should_be_mapped c); cbn [fst snd];
    unfold map_window_checked, unmap_window_checked; rewrite bind_run;
    unfold checked at 1; now destruct (rejects (w_log w) _).
Qed.

(** What an [ensure_state] that is out of sync sends and returns. *)
Lemma ensure_state_issues c w :
  should_be_mapped c ≠ m_mapped c →
  let first := if should_be_mapped c
               then MapWindow (embedder c) else UnmapWindow (client c) in
  let second := if should_be_mapped c
                then MapWindow (client c) else UnmapWindow (embedder c) in
  w_log (ensure_state rejects c w).2 =
    w_log w ++ Checked first (rejects (w_log w) first) ::
      (if rejects (w_log w) first then []
       else [Checked second (rejects (w_log w ++ [Checked first false]) second)])
  ∧ (ensure_state rejects c w).1 =
      (if rejects (w_log w) first then Throw (RequestFailed first)
       else if rejects (w_log w ++ [Checked first false]) second
            then Throw (RequestFailed second)
            else Ok tt).
Proof.
  intros Hne. cbv zeta. rewrite ensure_state_eq.
  destruct (eqb (should_be_mapped c) (m_mapped c)) eqn:E.
  { apply eqb_prop in E. contradiction. }
  unfold transition_requests, embedder, client.
  destruct (should_be_mapped c); cbn [fst snd];
    (destruct (rejects (w_log w) _) eqn:R1; [now split|]);
    unfold checked; cbn [log_event w_log set_w_windows];
    destruct (rejects (w_log w ++ _) _) eqn:R2;
    cbn [fst snd log_event w_log set_w_windows]; rewrite <- ?app_assoc;
    now split.
Qed.

(** C1, as the code has it: [ensure_state] returns without a request when
    [should_be_mapped] equals the stored flag.  Otherwise it issues the map
    or unmap requests (the first, and the second when the first was
    accepted), throws when one of them is rejected, and leaves the object,
    the stored flag included, as it was, so that a second call in a row
    issues them again; once [mapped(bool)] has recorded the new state a
    further call issues nothing. *)
Theorem ensure_state_sync (c : tray_client) (w : world) :
  let first := if should_be_mapped c
               then MapWindow (embedder c) else UnmapWindow (client c) in
  let second := if should_be_mapped c
                then MapWindow (client c) else UnmapWindow (embedder c) in
  let issued := λ before : list event,
    Checked first (rejects before first) ::
      (if rejects before first then []
       else [Checked second (rejects (before ++ [Checked first false]) second)]) in
  (should_be_mapped c = m_mapped c → ensure_state rejects c w = (Ok tt, w))
  ∧ (should_be_mapped c ≠ m_mapped c →
       w_log (ensure_state rejects c w).2 = w_log w ++ issued (w_log w)
       ∧ (ensure_state rejects c w).1 =
           (if rejects (w_log w) first then Throw (RequestFailed first)
            else if rejects (w_log w ++ [Checked first false]) second
                 then Throw (RequestFailed second)
                 else Ok tt)
       ∧ w_log (ensure_state rejects c (ensure_state rejects c w).2).2
         = w_log w ++ issued (w_log w) ++ issued (w_log w ++ issued (w_log w)))
  ∧ (invoke rejects id call_ensure_state (c, w)).2.1 = c
  ∧ (∀ w', ensure_state rejects (set_m_mapped (should_be_mapped c) c) w'
           = (Ok tt, w')).
Proof.
  cbv zeta. split; [|split; [|split]].
  - intros H. unfold ensure_state. cbv zeta. rewrite H, eqb_reflx. reflexivity.
  - intros H.
    destruct (ensure_state_issues c w H) as [Hlog Hres]. cbv zeta in Hlog, Hres.
    split; [exact Hlog|]. split; [exact Hres|].
    destruct (ensure_state_issues c (ensure_state rejects c w).2 H) as [Hlog2 _].
    cbv zeta in Hlog2. rewrite Hlog2, Hlog. now rewrite <- app_assoc.
  - cbn [invoke]. unfold call. cbn [fst snd]. now destruct (ensure_state _ _ _).
  - intros w'. unfold ensure_state. cbv zeta.
    rewrite should_be_mapped_set_m_mapped. cbn [set_m_mapped m_mapped].
    now rewrite eqb_reflx.
Qed.

(** C2, as the code has it: the stored mapped flag is written by the setter
    [mapped(bool)] and by nothing else; a run of calls without the setter,
    [ensure_state] among them, leaves the flag as it was, and a call
    of the setter makes it the given state. *)
Theorem mapped_flag_written_by_setter_only
    (ms : list method) (s : tray_client * world) :
  Forall (λ m, is_mapped_set m = false) ms →
  m_mapped (run rejects id ms s).1 = m_mapped s.1
  ∧ ∀ state, m_mapped (run rejects id (ms ++ [call_mapped_set state]) s).1 = state.
Proof.
  intros H. split; [now apply run_keeps_mapped|].
  intros state. rewrite run_app.
  change (run rejects id [call_mapped_set state] ?s0)
    with (mapped_set state s0).2.
  apply mapped_set_writes.
Qed.

(** ** Construction *)

Lemma checked_ok_inv r w a w' :
  checked rejects r w = (Ok a, w') →
  rejects (w_log w) r = false
  ∧ w' = log_event (Checked r false)
           (set_w_windows (apply_request r (w_windows w)) w).
Proof.
  unfold checked. destruct (rejects (w_log w) r); intros [= <-]; auto.
Qed.

Lemma query_ok_inv r win w xw w' :
  query rejects r win w = (Ok xw, w') →
  w_windows w !! win = Some xw ∧ w' = log_event (Checked r false) w.
Proof.
  unfold query. destruct (w_windows w !! win) as [xw0|]; [|discriminate].
  destruct (rejects (w_log w) r); [discriminate|]. now intros [= <- <-].
Qed.

(** What a constructor that returned has done: the icon window existed, the
    embedder window was created under the identifier the allocator handed
    out, with the requested size at the origin of the parent and with the
    depth, visual and colormap of the icon window, and the window table is
    otherwise as before. *)
Lemma ctor_returns parent win s desired_background w c w' :
  tray_client_ctor rejects parent win s desired_background w = (Ok c, w') →
  ∃ icon spec,
    w_windows w !! win = Some icon
    ∧ m_client c = win ∧ m_wrapper c = w_next_id w ∧ m_size c = s
    ∧ m_mapped c = false ∧ m_hidden c = false
    ∧ m_bg_slice c = Some (length (w_slices w))
    ∧ w_windows w' = <[w_next_id w := created_window spec]> (w_windows w)
    ∧ cw_size_w spec = size_w s ∧ cw_size_h spec = size_h s
    ∧ cw_pos_x spec = 0 ∧ cw_pos_y spec = 0 ∧ cw_parent spec = parent
    ∧ cw_depth spec = xw_depth icon ∧ cw_visual spec = xw_visual icon
    ∧ cw_params_colormap spec = xw_colormap icon.
Proof.
  unfold tray_client_ctor. intros H.
  rewrite bind_run in H. unfold get_wm_name at 1 in H. cbv beta iota in H.
  rewrite bind_run in H.
  destruct (get_geometry rejects win w) as [[geom|e] w1] eqn:G; [|discriminate].
  apply query_ok_inv in G as [Hicon ->].
  rewrite bind_run in H.
  destruct (get_window_attributes rejects win _) as [[attrs|e] w2] eqn:A;
    [|discriminate].
  apply query_ok_inv in A as [Hattrs ->].
  cbn [log_event w_windows] in Hattrs. rewrite Hicon in Hattrs.
  injection Hattrs as <-.
  cbv zeta in H.
  rewrite bind_run in H. unfold screen_black_pixel at 1 in H. cbv beta iota in H.
  rewrite bind_run in H.
  unfold winspec_flush at 1 in H. rewrite bind_run in H.
  unfold generate_id at 1 in H. cbv beta iota in H.
  rewrite bind_run in H.
  match type of H with context [checked rejects (CreateWindow ?i ?sp) ?w0] =>
    set (spec := sp) in H;
    destruct (checked rejects (CreateWindow i spec) w0) as [[[]|e] w3] eqn:C1;
      [|discriminate]
  end.
  apply checked_ok_inv in C1 as [_ Hw3].
  cbn [log_event w_windows w_next_id set_w_next_id set_w_windows apply_request]
    in Hw3.
  assert (Hwin3 : w_windows w3 = <[w_next_id w := created_window spec]> (w_windows w))
    by now subst w3.
  assert (Hsl3 : w_slices w3 = w_slices w) by now subst w3.
  clear Hw3.
  unfold mret at 1, SE_ret at 1 in H. cbv beta iota in H.
  cbn [log_event w_next_id] in H.
  rewrite bind_run in H. unfold generate_id at 1 in H. cbv beta iota in H.
  rewrite bind_run in H. unfold create_pixmap_checked at 1 in H.
  match type of H with context [checked rejects ?r ?w0] =>
    destruct (checked rejects r w0) as [[[]|e] w4] eqn:C2; [|discriminate]
  end.
  apply checked_ok_inv in C2 as [_ Hw4].
  cbn [log_event w_windows w_next_id set_w_next_id set_w_windows apply_request]
    in Hw4.
  assert (Hwin4 : w_windows w4 = <[w_next_id w := created_window spec]> (w_windows w))
    by now subst w4.
  assert (Hsl4 : w_slices w4 = w_slices w) by now subst w4.
  clear Hw4 Hwin3 Hsl3.
  rewrite bind_run in H. unfold change_window_attributes_checked at 1 in H.
  match type of H with context [checked rejects ?r ?w0] =>
    destruct (checked rejects r w0) as [[[]|e] w5] eqn:C3; [|discriminate]
  end.
  apply checked_ok_inv in C3 as [_ Hw5].
  cbn [apply_request] in Hw5.
  assert (Hwin5 : w_windows w5 = <[w_next_id w := created_window spec]> (w_windows w))
    by now subst w5.
  assert (Hsl5 : w_slices w5 = w_slices w) by now subst w5.
  clear Hw5 Hwin4 Hsl4.
  rewrite bind_run in H. unfold generate_id at 1 in H. cbv beta iota in H.
  unfold XCB_AUX_ADD_PARAM at 1 in H. cbv beta iota zeta in H.
  rewrite bind_run in H. unfold create_gc_checked at 1 in H.
  match type of H with context [checked rejects ?r ?w0] =>
    destruct (checked rejects r w0) as [[[]|e] w6] eqn:C4; [|discriminate]
  end.
  apply checked_ok_inv in C4 as [_ Hw6].
  cbn [apply_request] in Hw6.
  assert (Hwin6 : w_windows w6 = <[w_next_id w := created_window spec]> (w_windows w))
    by now subst w6.
  assert (Hsl6 : w_slices w6 = w_slices w) by now subst w6.
  clear Hw6 Hwin5 Hsl5.
  rewrite bind_run in H. unfold visual_type_for_id at 1 in H.
  cbv beta iota in H.
  destruct (decide (xw_visual geom ∈ w_visuals w6)) as [Hvis|]; [|discriminate].
  unfold construct_with in H.
  set (c0 := initial_members _ _ _ _ _ _) in H.
  pose proof (observe_background_facts c0 w6) as (Hc & _ & _ & Hwin).
  cbv zeta in Hc, Hwin.
  destruct (observe_background rejects (c0, w6)) as [[[]|e] [c' w7]];
    [|discriminate].
  cbn [fst snd] in Hc, Hwin. injection H as <- <-. subst c'.
  exists geom, spec. rewrite Hwin, Hwin6, Hsl6.
  now repeat split.
Qed.

Lemma ctor_embedder_not_matched parent win s desired_background w c w' :
  tray_client_ctor rejects parent win s desired_background w = (Ok c, w') →
  w_windows w !! w_next_id w = None →
  match_ c (embedder c) = false.
Proof.
  intros H Hfresh.
  destruct (ctor_returns _ _ _ _ _ _ _ H) as (icon & spec & Hicon & Hc & Hw & _).
  unfold match_, embedder. apply bool_decide_eq_false.
  rewrite Hc, Hw. intros E. rewrite E in Hfresh. congruence.
Qed.

(** C9: [match] answers true exactly for the icon window handle, which is
    the handle the constructor was given, and false for every other handle;
    the client's own embedder window is another window (it gets a fresh
    identifier at construction) and does not match. *)
Theorem match_is_icon_handle (c : tray_client) (win : xid) :
  (match_ c win = true ↔ win = client c)
  ∧ (match_ c win = false ↔ win ≠ client c)
  ∧ (embedder c ≠ client c → match_ c (embedder c) = false)
  ∧ (∀ parent icon s desired_background w w',
       tray_client_ctor rejects parent icon s desired_background w = (Ok c, w') →
       client c = icon
       ∧ (w_windows w !! w_next_id w = None → match_ c (embedder c) = false)).
Proof.
  unfold match_, client. split; [|split; [|split]].
  - apply bool_decide_eq_true.
  - apply bool_decide_eq_false.
  - intros H. now apply bool_decide_eq_false.
  - intros parent icon s bg w w' H. split.
    + now destruct (ctor_returns _ _ _ _ _ _ _ H) as (_ & _ & _ & Hc & _).
    + intros Hfresh. exact (ctor_embedder_not_matched _ _ _ _ _ _ _ H Hfresh).
Qed.

(** ** What the server makes of a ConfigureWindow of [set_position] *)

Lemma to_u16_to_u32 z : to_u16 (to_u32 z) = to_u16 z.
Proof.
  unfold to_u16, to_u32. apply Z.mod_mod_divide.
  exists (2 ^ 16). reflexivity.
Qed.

Lemma to_i16_to_u32 z : to_i16 (to_u32 z) = to_i16 z.
Proof.
  unfold to_i16. f_equal.
  rewrite (Z.add_mod (to_u32 z)) by lia.
  change (to_u32 z mod 2 ^ 16) with (to_u16 (to_u32 z)).
  rewrite to_u16_to_u32. unfold to_u16. now rewrite <- Z.add_mod by lia.
Qed.

Lemma apply_configure_request vx vy vw vh xw :
  let xw' := apply_configure 15 [to_u32 vx; to_u32 vy; to_u32 vw; to_u32 vh] xw in
  xw_x xw' = to_i16 vx ∧ xw_y xw' = to_i16 vy
  ∧ xw_width xw' = to_u16 vw ∧ xw_height xw' = to_u16 vh.
Proof.
  cbv zeta.
  change (apply_configure 15 [to_u32 vx; to_u32 vy; to_u32 vw; to_u32 vh] xw)
    with (set_xw_geometry cfg_height (to_u32 vh)
            (set_xw_geometry cfg_width (to_u32 vw)
               (set_xw_geometry cfg_y (to_u32 vy)
                  (set_xw_geometry cfg_x (to_u32 vx) xw)))).
  cbn [set_xw_geometry xw_x xw_y xw_width xw_height].
  repeat (destruct (decide _); try discriminate; try congruence).
  now rewrite !to_i16_to_u32, !to_u16_to_u32.
Qed.


(** ** Destruction *)

Lemma dtor_never_throws c w : (tray_client_dtor rejects c w).1 = Ok tt.
Proof.
  unfold tray_client_dtor. rewrite bind_run.
  destruct (bool_decide (m_client c ≠ XCB_NONE)).
  - rewrite bind_run. unfold root at 1. cbv beta iota.
    unfold xembed_unembed, unchecked at 1.
    destruct (rejects (w_log w) _); cbv beta iota;
      (destruct (bool_decide (m_wrapper c ≠ XCB_NONE));
       [apply unchecked_returns | reflexivity]).
  - unfold mret at 1, SE_ret at 1. cbv beta iota.
    destruct (bool_decide (m_wrapper c ≠ XCB_NONE));
      [apply unchecked_returns | reflexivity].
Qed.

(** C4: the destructor of a client that owns its two windows releases the
    icon window to the root window and then destroys the embedder window.
    Whatever the server answers to either step, the other one is still
    issued and the destructor returns without throwing. *)
Theorem dtor_best_effort (c : tray_client) (w : world) :
  m_client c ≠ XCB_NONE →
  m_wrapper c ≠ XCB_NONE →
  let release := Unembed (m_client c) (w_root w) in
  let destroy := DestroyWindow (m_wrapper c) in
  let failed := rejects (w_log w) release in
  (tray_client_dtor rejects c w).1 = Ok tt
  ∧ w_log (tray_client_dtor rejects c w).2
    = w_log w ++ [Unchecked release failed;
                  Unchecked destroy
                    (rejects (w_log w ++ [Unchecked release failed]) destroy)].
Proof.
  intros Hc Hw. cbv zeta. split; [apply dtor_never_throws|].
  unfold tray_client_dtor. rewrite bind_run.
  rewrite !bool_decide_eq_true_2 by assumption.
  rewrite bind_run. unfold root at 1. cbv beta iota.
  unfold xembed_unembed, destroy_window.
  pose proof (unchecked_log (Unembed (m_client c) (w_root w)) w) as Hl.
  pose proof (unchecked_returns (Unembed (m_client c) (w_root w)) w) as Hr.
  destruct (unchecked rejects (Unembed _ _) w) as [r w1].
  cbn [fst snd] in Hl, Hr. subst r.
  rewrite unchecked_log, Hl. rewrite <- app_assoc. reflexivity.
Qed.

(** * Further properties of the member functions *)

(** ** Moving twice *)

Lemma set_position_same x y c w :
  m_pos c = {| pos_x := x; pos_y := y |} →
  set_position rejects x y (c, w) = (Ok tt, (c, w)).
Proof.
  intros H. unfold set_position. rewrite bind_run. cbn [this fst snd].
  rewrite H. now rewrite (proj2 (position_eqb_eq _ _) eq_refl).
Qed.

Lemma set_position_sets_pos x y s :
  m_pos (set_position rejects x y s).2.1 = {| pos_x := x; pos_y := y |}.
Proof.
  destruct s as [c w].
  destruct (position_eqb {| pos_x := x; pos_y := y |} (m_pos c)) eqn:E.
  - apply position_eqb_eq in E. now rewrite set_position_same.
  - apply position_eqb_neq in E.
    rewrite (set_position_changed x y c w E). cbv zeta.
    destruct (rejects (w_log w) _); [reflexivity|].
    destruct (rejects (w_log _) _); [reflexivity|].
    rewrite observe_background_run. reflexivity.
Qed.

(** X1: whatever a [set_position(x, y)] did, returned or thrown, the cached
    position is (x, y) afterwards, so the same call made again returns at
    once and sends nothing: a move that failed half way is not retried by
    repeating it. *)
Theorem set_position_retry_noop (x y : Z) (s : tray_client * world) :
  m_pos (set_position rejects x y s).2.1 = {| pos_x := x; pos_y := y |}
  ∧ set_position rejects x y (set_position rejects x y s).2
    = (Ok tt, (set_position rejects x y s).2).
Proof.
  split; [apply set_position_sets_pos|].
  pose proof (set_position_sets_pos x y s) as H.
  destruct (set_position rejects x y s) as [r [c1 w1]]. cbn [fst snd] in *.
  now apply set_position_same.
Qed.

(** X2: when a ConfigureWindow of [set_position] is rejected, no background
    slice is requested: the call throws with the position already changed
    and [m_bg_slice] still the slice of the old position. *)
Theorem set_position_failed_keeps_slice (x y : Z) (c : tray_client) (w : world) :
  {| pos_x := x; pos_y := y |} ≠ m_pos c →
  rejects (w_log w) (configure_request (embedder c) x y (width c) (height c))
    = true
  ∨ rejects (w_log w ++ [Checked (configure_request (embedder c) x y (width c)
                                    (height c)) false])
      (configure_request (client c) 0 0 (width c) (height c)) = true →
  (∃ e, (set_position rejects x y (c, w)).1 = Throw e)
  ∧ (set_position rejects x y (c, w)).2.1
    = set_m_pos {| pos_x := x; pos_y := y |} c
  ∧ w_slices (set_position rejects x y (c, w)).2.2 = w_slices w
  ∧ observations (w_log (set_position rejects x y (c, w)).2.2)
    = observations (w_log w).
Proof.
  intros H Hrej. rewrite (set_position_changed x y c w H). cbv zeta.
  destruct (rejects (w_log w) _) eqn:R1.
  - cbn [fst snd log_event w_slices w_log]. rewrite observations_app.
    cbn. rewrite app_nil_r. eauto.
  - destruct Hrej as [Hrej|Hrej]; [discriminate|].
    cbn [log_event w_log set_w_windows]. rewrite Hrej.
    cbn [fst snd log_event w_slices w_log set_w_windows].
    rewrite !observations_app. cbn. rewrite !app_nil_r. eauto.
Qed.

(** ** Members that never change *)

Lemma invoke_keeps_immutable m : keeps immutable_part (invoke rejects id m).
Proof.
  destruct m; cbn [invoke]; auto with keeps.
  - unfold mapped_set. apply keeps_bind; [apply keeps_this | intros c].
    destruct (negb _); [now apply keeps_update | apply keeps_ret].
  - now apply keeps_update.
  - now apply query_xembed_keeps.
  - now apply set_position_keeps.
Qed.

(** X3: no call of the interface, in any order and whatever fails, changes
    the icon window handle, the embedder window handle, the target size, the
    title, the tint colour or the surface the client was built with. *)
Theorem run_keeps_immutable_part (ms : list method) (s : tray_client * world) :
  immutable_part (run rejects id ms s).1 = immutable_part s.1
  ∧ client (run rejects id ms s).1 = client s.1
  ∧ embedder (run rejects id ms s).1 = embedder s.1
  ∧ width (run rejects id ms s).1 = width s.1
  ∧ height (run rejects id ms s).1 = height s.1.
Proof.
  assert (H : immutable_part (run rejects id ms s).1 = immutable_part s.1).
  { revert s. induction ms as [|m ms IH]; intros s; [reflexivity|].
    change (run rejects id (m :: ms) s)
      with (run rejects id ms (invoke rejects id m s).2).
    rewrite IH. apply invoke_keeps_immutable. }
  split; [exact H|]. unfold immutable_part in H.
  unfold client, embedder, width, height. injection H as _ -> -> -> _ _.
  now repeat split.
Qed.

(** ** Visibility changes *)

(** X4: [hidden(true)] sends nothing and only sets the hidden flag; the
    [ensure_state] that follows unmaps the icon window and then the embedder
    window when the client was recorded as mapped, and sends nothing when it
    was not, whatever the XEMBED state says. *)
Theorem hidden_then_ensure_state (c : tray_client) (w : world) :
  let s' := run rejects id [call_hidden true; call_ensure_state] (c, w) in
  let first := UnmapWindow (client c) in
  let second := UnmapWindow (embedder c) in
  let verdict := rejects (w_log w) first in
  s'.1 = set_m_hidden true c
  ∧ w_log s'.2 =
      w_log w ++
      (if m_mapped c
       then Checked first verdict ::
            (if verdict then []
             else [Checked second
                     (rejects (w_log w ++ [Checked first false]) second)])
       else []).
Proof.
  cbv zeta.
  assert (E : run rejects id [call_hidden true; call_ensure_state] (c, w)
              = (set_m_hidden true c,
                 (ensure_state rejects (set_m_hidden true c) w).2)).
  { unfold run. cbn [foldl invoke]. unfold hidden, update_this, call.
    cbn [fst snd]. now destruct (ensure_state _ _ _). }
  rewrite E. cbn [fst snd]. split; [reflexivity|].
  rewrite ensure_state_eq.
  change (should_be_mapped (set_m_hidden true c)) with false.
  change (m_mapped (set_m_hidden true c)) with (m_mapped c).
  unfold transition_requests, client, embedder. cbn [fst snd set_m_hidden
    m_client m_wrapper].
  destruct (m_mapped c); cbn [eqb].
  - destruct (rejects (w_log w) _) eqn:R1; cbn [fst snd]; [reflexivity|].
    rewrite checked_log.
    cbn [log_event w_log set_w_windows]. now rewrite <- app_assoc.
  - cbn [fst snd]. now rewrite app_nil_r.
Qed.

(** X5: when [ensure_state] maps and the server rejects the map of the icon
    window after accepting the map of the embedder window, the call throws
    and the embedder window stays mapped with the icon window as it was;
    when the first request is rejected nothing has changed on the server. *)
Theorem ensure_state_partial_failure (c : tray_client) (w : world) :
  should_be_mapped c ≠ m_mapped c →
  embedder c ≠ client c →
  let first := (transition_requests c (should_be_mapped c)).1 in
  let second := (transition_requests c (should_be_mapped c)).2 in
  (rejects (w_log w) first = true →
     (ensure_state rejects c w).1 = Throw (RequestFailed first)
     ∧ w_windows (ensure_state rejects c w).2 = w_windows w)
  ∧ (rejects (w_log w) first = false →
     rejects (w_log w ++ [Checked first false]) second = true →
     (ensure_state rejects c w).1 = Throw (RequestFailed second)
     ∧ w_windows (ensure_state rejects c w).2 = apply_request first (w_windows w)
     ∧ (xw_mapped <$> w_windows (ensure_state rejects c w).2
                        !! (if should_be_mapped c then embedder c else client c))
       = (λ _, should_be_mapped c) <$>
           w_windows w !! (if should_be_mapped c then embedder c else client c)
     ∧ w_windows (ensure_state rejects c w).2
         !! (if should_be_mapped c then client c else embedder c)
       = w_windows w !! (if should_be_mapped c then client c else embedder c)).
Proof.
  intros Hne Hdiff. cbv zeta. rewrite ensure_state_eq.
  destruct (eqb _ _) eqn:E; [apply eqb_prop in E; contradiction|].
  split.
  - intros ->. now split.
  - intros -> R2. unfold checked. cbn [log_event w_log set_w_windows]. rewrite R2.
    cbn [fst snd log_event w_windows set_w_windows].
    split; [reflexivity|]. split; [reflexivity|].
    unfold transition_requests, embedder, client in *.
    destruct (should_be_mapped c); cbn [fst snd apply_request];
      rewrite lookup_alter_eq, lookup_alter_ne by congruence;
      (split; [|reflexivity]);
      now destruct (w_windows w !! _).
Qed.

(** ** How construction fails *)

Lemma observations_snoc_checked l r b :
  observations (l ++ [Checked r b]) = observations l.
Proof. rewrite observations_app. cbn. apply app_nil_r. Qed.

Lemma checked_throw_inv r w e w' :
  checked rejects r w = (Throw e, w') →
  e = RequestFailed r ∧ rejects (w_log w) r = true
  ∧ w' = log_event (Checked r true) w.
Proof.
  unfold checked. destruct (rejects (w_log w) r); [|discriminate].
  now intros [= <- <-].
Qed.

Lemma query_throw_inv r win w e w' :
  query rejects r win w = (Throw e, w') →
  e = RequestFailed r ∧ w' = log_event (Checked r true) w
  ∧ (w_windows w !! win = None ∨ rejects (w_log w) r = true).
Proof.
  unfold query. destruct (w_windows w !! win) as [xw|].
  - destruct (rejects (w_log w) r); [|discriminate]. intros [= <- <-]. auto.
  - intros [= <- <-]. auto.
Qed.

Lemma observe_background_throw_inv c w e s' :
  observe_background rejects (c, w) = (Throw e, s') →
  ∃ l q, e = RequestFailed q ∧ rejects l q = true.
Proof.
  rewrite observe_background_run. cbv zeta. rewrite update_bg_eq. cbv zeta.
  destruct (rejects _ _) eqn:R1; cbn [fst snd].
  - intros H. inversion H. subst. eexists _, _. split; [reflexivity|exact R1].
  - destruct (rejects (w_log (log_event _ _)) _) eqn:R2; cbn [fst snd];
      intros H; inversion H.
    subst. eexists _, _. split; [reflexivity|exact R2].
Qed.

(** Why a constructor threw: the icon window is gone, the server rejected a
    request, or the visual of the icon window is unknown; in the last case
    the embedder window, the pixmap and the graphics context have been
    created by then and nothing has taken them back. *)
Lemma ctor_throws parent win s desired_background w e w' :
  tray_client_ctor rejects parent win s desired_background w = (Throw e, w') →
  (w_windows w !! win = None
   ∧ e = RequestFailed (GetGeometry win)
   ∧ w' = log_event (Checked (GetGeometry win) true) w)
  ∨ (∃ l q, e = RequestFailed q ∧ rejects l q = true)
  ∨ (∃ icon spec,
       w_windows w !! win = Some icon
       ∧ e = RuntimeError "Failed to get root visual for tray background"
       ∧ (xw_visual icon ∉ w_visuals w)
       ∧ w_windows w' = <[w_next_id w := created_window spec]> (w_windows w)
       ∧ cw_parent spec = parent
       ∧ w_next_id w' = (w_next_id w + 1 + 1 + 1)%N
       ∧ w_slices w' = w_slices w
       ∧ observations (w_log w') = observations (w_log w)).
Proof.
  unfold tray_client_ctor. intros H.
  rewrite bind_run in H. unfold get_wm_name at 1 in H. cbv beta iota in H.
  rewrite bind_run in H.
  destruct (get_geometry rejects win w) as [[geom|e1] w1] eqn:G.
  2:{ injection H as <- <-. apply query_throw_inv in G as (-> & -> & [Hn|Hr]).
      - left. auto.
      - right. left. eauto. }
  apply query_ok_inv in G as [Hicon ->].
  rewrite bind_run in H.
  destruct (get_window_attributes rejects win _) as [[attrs|e1] w2] eqn:A.
  2:{ injection H as <- <-. apply query_throw_inv in A as (-> & -> & [Hn|Hr]).
      - cbn [log_event w_windows] in Hn. congruence.
      - right. left. eauto. }
  apply query_ok_inv in A as [Hattrs ->].
  cbn [log_event w_windows] in Hattrs. rewrite Hicon in Hattrs.
  injection Hattrs as <-.
  cbv zeta in H.
  rewrite bind_run in H. unfold screen_black_pixel at 1 in H. cbv beta iota in H.
  rewrite bind_run in H.
  unfold winspec_flush at 1 in H. rewrite bind_run in H.
  unfold generate_id at 1 in H. cbv beta iota in H.
  rewrite bind_run in H.
  match type of H with context [checked rejects (CreateWindow ?i ?sp) ?w0] =>
    set (spec := sp) in H;
    destruct (checked rejects (CreateWindow i spec) w0) as [[[]|e1] w3] eqn:C1
  end.
  2:{ injection H as <- <-. apply checked_throw_inv in C1 as (-> & Hr & _).
      right. left. eauto. }
  apply checked_ok_inv in C1 as [_ Hw3].
  cbn [log_event w_windows w_next_id set_w_next_id set_w_windows apply_request]
    in Hw3.
  assert (Hwin3 : w_windows w3 = <[w_next_id w := created_window spec]> (w_windows w))
    by now subst w3.
  assert (Hsl3 : w_slices w3 = w_slices w) by now subst w3.
  assert (Hid3 : w_next_id w3 = (w_next_id w + 1)%N) by now subst w3.
  assert (Hvis3 : w_visuals w3 = w_visuals w) by now subst w3.
  assert (Hobs3 : observations (w_log w3) = observations (w_log w)).
  { subst w3. cbn [log_event w_log set_w_windows set_w_next_id].
    now rewrite !observations_snoc_checked. }
  clear Hw3.
  unfold mret at 1, SE_ret at 1 in H. cbv beta iota in H.
  cbn [log_event w_next_id] in H.
  rewrite bind_run in H. unfold generate_id at 1 in H. cbv beta iota in H.
  rewrite bind_run in H. unfold create_pixmap_checked at 1 in H.
  match type of H with context [checked rejects ?r ?w0] =>
    destruct (checked rejects r w0) as [[[]|e1] w4] eqn:C2
  end.
  2:{ injection H as <- <-. apply checked_throw_inv in C2 as (-> & Hr & _).
      right. left. eauto. }
  apply checked_ok_inv in C2 as [_ Hw4].
  cbn [log_event w_windows w_next_id set_w_next_id set_w_windows apply_request]
    in Hw4.
  assert (Hwin4 : w_windows w4 = <[w_next_id w := created_window spec]> (w_windows w))
    by now subst w4.
  assert (Hsl4 : w_slices w4 = w_slices w) by now subst w4.
  assert (Hid4 : w_next_id w4 = (w_next_id w + 1 + 1)%N)
    by (subst w4; cbn; now rewrite Hid3).
  assert (Hvis4 : w_visuals w4 = w_visuals w) by now subst w4.
  assert (Hobs4 : observations (w_log w4) = observations (w_log w)).
  { subst w4. cbn [log_event w_log set_w_windows set_w_next_id].
    now rewrite observations_snoc_checked. }
  clear Hw4 Hwin3 Hsl3 Hvis3 Hobs3.
  rewrite bind_run in H. unfold change_window_attributes_checked at 1 in H.
  match type of H with context [checked rejects ?r ?w0] =>
    destruct (checked rejects r w0) as [[[]|e1] w5] eqn:C3
  end.
  2:{ injection H as <- <-. apply checked_throw_inv in C3 as (-> & Hr & _).
      right. left. eauto. }
  apply checked_ok_inv in C3 as [_ Hw5].
  cbn [apply_request] in Hw5.
  assert (Hwin5 : w_windows w5 = <[w_next_id w := created_window spec]> (w_windows w))
    by now subst w5.
  assert (Hsl5 : w_slices w5 = w_slices w) by now subst w5.
  assert (Hid5 : w_next_id w5 = (w_next_id w + 1 + 1)%N) by now subst w5.
  assert (Hvis5 : w_visuals w5 = w_visuals w) by now subst w5.
  assert (Hobs5 : observations (w_log w5) = observations (w_log w)).
  { subst w5. cbn [log_event w_log set_w_windows].
    now rewrite observations_snoc_checked. }
  clear Hw5 Hwin4 Hsl4 Hid4 Hvis4 Hobs4.
  rewrite bind_run in H. unfold generate_id at 1 in H. cbv beta iota in H.
  unfold XCB_AUX_ADD_PARAM at 1 in H. cbv beta iota zeta in H.
  rewrite bind_run in H. unfold create_gc_checked at 1 in H.
  match type of H with context [checked rejects ?r ?w0] =>
    destruct (checked rejects r w0) as [[[]|e1] w6] eqn:C4
  end.
  2:{ injection H as <- <-. apply checked_throw_inv in C4 as (-> & Hr & _).
      right. left. eauto. }
  apply checked_ok_inv in C4 as [_ Hw6].
  cbn [apply_request] in Hw6.
  assert (Hwin6 : w_windows w6 = <[w_next_id w := created_window spec]> (w_windows w))
    by now subst w6.
  assert (Hsl6 : w_slices w6 = w_slices w) by now subst w6.
  assert (Hid6 : w_next_id w6 = (w_next_id w + 1 + 1 + 1)%N)
    by (subst w6; cbn; now rewrite Hid5).
  assert (Hvis6 : w_visuals w6 = w_visuals w) by now subst w6.
  assert (Hobs6 : observations (w_log w6) = observations (w_log w)).
  { subst w6. cbn [log_event w_log set_w_windows set_w_next_id].
    now rewrite observations_snoc_checked. }
  clear Hw6 Hwin5 Hsl5 Hid5 Hvis5 Hobs5.
  rewrite bind_run in H. unfold visual_type_for_id at 1 in H.
  cbv beta iota in H.
  destruct (decide (xw_visual geom ∈ w_visuals w6)) as [Hvis|Hvis].
  - unfold construct_with in H.
    destruct (observe_background rejects _) as [[[]|e1] [c' w7]] eqn:O;
      [discriminate|].
    injection H as <- <-.
    apply observe_background_throw_inv in O. right. left. exact O.
  - unfold throw in H. injection H as <- <-. right. right.
    exists geom, spec. rewrite Hvis6 in Hvis.
    now repeat split.
Qed.

(** X6: a constructor given a window the server does not know throws on its
    first request; no identifier has been allocated, no window created and
    no background slice requested. *)
Theorem ctor_missing_icon (parent win : xid) (s : size) (desired_background : Z)
    (w : world) :
  w_windows w !! win = None →
  tray_client_ctor rejects parent win s desired_background w
  = (Throw (RequestFailed (GetGeometry win)),
     log_event (Checked (GetGeometry win) true) w).
Proof.
  intros H. unfold tray_client_ctor.
  rewrite bind_run. unfold get_wm_name at 1. cbv beta iota.
  rewrite bind_run. unfold get_geometry, query. now rewrite H.
Qed.

(** X7: when the constructor throws its runtime error, the visual of the
    icon window was unknown; by then the embedder window has been created
    under the parent and three identifiers (window, pixmap, graphics
    context) are used up, and the failing constructor leaves them behind:
    the embedder window is still in the server's table, and no background
    slice was requested. *)
Theorem ctor_unknown_visual_leaks (parent win : xid) (s : size)
    (desired_background : Z) (w w' : world) (what : string) :
  tray_client_ctor rejects parent win s desired_background w
  = (Throw (RuntimeError what), w') →
  ∃ icon emb,
    w_windows w !! win = Some icon
    ∧ (xw_visual icon ∉ w_visuals w)
    ∧ w_windows w' !! w_next_id w = Some emb
    ∧ xw_parent emb = parent
    ∧ w_next_id w' = (w_next_id w + 3)%N
    ∧ w_slices w' = w_slices w
    ∧ observations (w_log w') = observations (w_log w).
Proof.
  intros H. apply ctor_throws in H as [(_ & H & _)|[(l & q & H & _)|H]];
    try discriminate.
  destruct H as (icon & spec & Hicon & _ & Hvis & Hwin & Hpar & Hid & Hsl & Hobs).
  exists icon, (created_window spec). rewrite Hwin, lookup_insert_eq.
  repeat split; try assumption. rewrite Hid. lia.
Qed.

(** X8: on a server that rejects nothing, the constructor returns a client
    for every icon window that exists and whose visual is known. *)
Theorem ctor_succeeds (parent win : xid) (s : size) (desired_background : Z)
    (w : world) (icon : xwindow) :
  (∀ l q, rejects l q = false) →
  w_windows w !! win = Some icon →
  xw_visual icon ∈ w_visuals w →
  ∃ c w', tray_client_ctor rejects parent win s desired_background w = (Ok c, w')
          ∧ client c = win ∧ width c = size_w s ∧ height c = size_h s.
Proof.
  intros Hacc Hicon Hvis.
  destruct (tray_client_ctor rejects parent win s desired_background w)
    as [[c|e] w'] eqn:E.
  - exists c, w'. split; [reflexivity|].
    destruct (ctor_returns _ _ _ _ _ _ _ E) as (_ & _ & _ & Hc & _ & Hs & _).
    unfold client, width, height. now rewrite Hc, Hs.
  - apply ctor_throws in E as [(Hn & _)|[(l & q & _ & Hr)|H]].
    + congruence.
    + rewrite Hacc in Hr. discriminate.
    + destruct H as (icon' & _ & Hicon' & _ & Hn & _).
      rewrite Hicon in Hicon'. injection Hicon' as <-. contradiction.
Qed.

(** X9: the embedder window a successful constructor creates has the depth,
    the visual and the colormap of the icon window, not those of the parent,
    is a child of the given parent, and is not mapped; the slice pointer of
    the new client is not null. *)
Theorem ctor_embedder_inherits (parent win : xid) (s : size)
    (desired_background : Z) (w w' : world) (c : tray_client) :
  tray_client_ctor rejects parent win s desired_background w = (Ok c, w') →
  ∃ icon emb,
    w_windows w !! client c = Some icon
    ∧ w_windows w' !! embedder c = Some emb
    ∧ xw_depth emb = xw_depth icon
    ∧ xw_visual emb = xw_visual icon
    ∧ xw_colormap emb = xw_colormap icon
    ∧ xw_parent emb = parent
    ∧ xw_mapped emb = false
    ∧ is_Some (m_bg_slice c).
Proof.
  intros H.
  destruct (ctor_returns _ _ _ _ _ _ _ H)
    as (icon & spec & Hicon & Hc & Hw & _ & _ & _ & Hsl & Hwin & _ & _ & _ & _
        & Hpar & Hd & Hv & Hcm).
  exists icon, (created_window spec). unfold client, embedder.
  rewrite Hc, Hw, Hwin, lookup_insert_eq, Hsl.
  cbn [created_window xw_depth xw_visual xw_colormap xw_parent xw_mapped].
  repeat split; try assumption. eauto.
Qed.

(** ** Destruction, whatever the handles *)

(** X10: the destructor sends the unembed only for an icon handle that is
    not XCB_NONE and the destroy only for an embedder handle that is not
    XCB_NONE, in that order, and nothing else; it returns in every case. *)
Theorem dtor_skips_null_handles (c : tray_client) (w : world) :
  let release := Unembed (m_client c) (w_root w) in
  let destroy := DestroyWindow (m_wrapper c) in
  let released := if bool_decide (m_client c ≠ XCB_NONE)
                  then [Unchecked release (rejects (w_log w) release)] else [] in
  let destroyed := if bool_decide (m_wrapper c ≠ XCB_NONE)
                   then [Unchecked destroy (rejects (w_log w ++ released) destroy)]
                   else [] in
  (tray_client_dtor rejects c w).1 = Ok tt
  ∧ w_log (tray_client_dtor rejects c w).2 = w_log w ++ released ++ destroyed.
Proof.
  cbv zeta. split; [apply dtor_never_throws|].
  unfold tray_client_dtor. rewrite bind_run.
  destruct (bool_decide (m_client c ≠ XCB_NONE)).
  - rewrite bind_run. unfold root at 1. cbv beta iota.
    unfold xembed_unembed, destroy_window.
    pose proof (unchecked_log (Unembed (m_client c) (w_root w)) w) as Hl.
    pose proof (unchecked_returns (Unembed (m_client c) (w_root w)) w) as Hr.
    destruct (unchecked rejects (Unembed _ _) w) as [r w1].
    cbn [fst snd] in Hl, Hr. subst r.
    destruct (bool_decide (m_wrapper c ≠ XCB_NONE)).
    + rewrite unchecked_log, Hl. now rewrite <- app_assoc.
    + cbn [mret SE_ret snd]. now rewrite Hl.
  - unfold mret at 1, SE_ret at 1. cbv beta iota.
    destruct (bool_decide (m_wrapper c ≠ XCB_NONE)).
    + unfold destroy_window. rewrite unchecked_log. now rewrite app_nil_r.
    + cbn [mret SE_ret snd]. now rewrite app_nil_r.
Qed.






(** ** The embedding protocol *)

Lemma query_xembed_run c w :
  query_xembed (c, w) =
    (Ok tt,
     (match w_windows w !! m_client c ≫= xw_xembed_info with
      | Some i => set_m_xembed_supported true (set_m_xembed i c)
      | None => set_m_xembed_supported false (set_m_xembed (m_xembed c) c)
      end, w)).
Proof.
  unfold query_xembed. rewrite bind_run. unfold call at 1, xembed_query.
  cbn [fst snd].
  destruct (w_windows w !! m_client c ≫= xw_xembed_info); reflexivity.
Qed.

(** X12: [query_xembed] followed by [notify_xembed] sends the embedded
    notification, with the embedder handle and the version the icon window
    advertises, exactly when the icon window carries the embedding-info
    property, and nothing when it does not; afterwards [should_be_mapped]
    follows the mapped bit of that property for an icon that has it and is
    true for one that has not, unless the client is hidden. *)
Theorem query_then_notify (c : tray_client) (w : world) :
  let s' := run rejects id [call_query_xembed; call_notify_xembed] (c, w) in
  let info := w_windows w !! client c ≫= xw_xembed_info in
  w_log s'.2 =
    w_log w ++
    match info with
    | Some i =>
        [Unchecked (NotifyEmbedded (client c) (embedder c) (get_version i))
           (rejects (w_log w)
              (NotifyEmbedded (client c) (embedder c) (get_version i)))]
    | None => []
    end
  ∧ is_xembed_supported s'.1 = bool_decide (is_Some info)
  ∧ should_be_mapped s'.1 =
      negb (m_hidden c)
      && match info with Some i => is_mapped i | None => true end.
Proof.
  cbv zeta. unfold run. cbn [foldl invoke]. rewrite query_xembed_run.
  cbn [fst snd]. unfold call, client, embedder. cbn [fst snd].
  destruct (w_windows w !! m_client c ≫= xw_xembed_info) as [i|].
  - unfold notify_xembed. cbn [is_xembed_supported set_m_xembed_supported
      m_xembed_supported].
    unfold xembed_notify_embedded, client, embedder.
    cbn [set_m_xembed_supported set_m_xembed m_client m_wrapper m_xembed].
    pose proof (unchecked_log
      (NotifyEmbedded (m_client c) (m_wrapper c) (get_version i)) w) as Hl.
    destruct (unchecked rejects _ w) as [r w1]. cbn [fst snd] in *.
    split; [exact Hl|]. split; [reflexivity|].
    unfold should_be_mapped. cbn. now destruct (m_hidden c).
  - unfold notify_xembed. cbn [is_xembed_supported set_m_xembed_supported
      m_xembed_supported mret SE_ret fst snd].
    rewrite app_nil_r. split; [reflexivity|]. split; [reflexivity|].
    unfold should_be_mapped. cbn. now destruct (m_hidden c).
Qed.

(** ** What the icon is told about its geometry *)

(** X13: after a [set_position] that reconfigured both windows, the
    synthetic ConfigureNotify of [configure_notify] tells the icon window
    exactly the geometry the server now has for it: the same offset (0, 0),
    width and height, with a border of 0; it is sent to the icon window
    only, unpropagated, under the structure-notify mask. *)
Theorem configure_notify_agrees_with_set_position
    (x y : Z) (c : tray_client) (w : world) (xc : xwindow) :
  {| pos_x := x; pos_y := y |} ≠ m_pos c →
  embedder c ≠ client c →
  w_windows w !! client c = Some xc →
  rejects (w_log w)
    (configure_request (embedder c) x y (width c) (height c)) = false →
  rejects (w_log w ++ [Checked (configure_request (embedder c) x y
                                  (width c) (height c)) false])
    (configure_request (client c) 0 0 (width c) (height c)) = false →
  let s' := (set_position rejects x y (c, w)).2 in
  ∃ ev xc',
    w_log (configure_notify rejects s'.1 s'.2).2
    = w_log s'.2 ++
        [Checked (SendEvent false (client c) XCB_EVENT_MASK_STRUCTURE_NOTIFY ev)
           (rejects (w_log s'.2)
              (SendEvent false (client c) XCB_EVENT_MASK_STRUCTURE_NOTIFY ev))]
    ∧ w_windows s'.2 !! client c = Some xc'
    ∧ cn_window ev = client c ∧ cn_event ev = client c
    ∧ cn_x ev = xw_x xc' ∧ cn_y ev = xw_y xc'
    ∧ cn_width ev = xw_width xc' ∧ cn_height ev = xw_height xc'
    ∧ cn_border_width ev = 0.
Proof.
  intros H Hne Hc R1 R2. cbv zeta.
  rewrite (set_position_accepted x y c w H R1 R2).
  set (c1 := set_m_pos _ c). set (w2 := log_event _ _).
  destruct (observe_background_facts c1 w2) as (Hc1 & _ & _ & Hwin).
  cbv zeta in Hc1, Hwin.
  destruct (observe_background rejects (c1, w2)) as [r [c2 w3]].
  cbn [fst snd] in *. subst c2.
  unfold configure_notify, send_event_checked. rewrite checked_log.
  eexists _, (apply_configure 15
                [to_u32 0; to_u32 0; to_u32 (width c); to_u32 (height c)] xc).
  split; [reflexivity|].
  rewrite Hwin. subst w2. cbn [log_event set_w_windows w_windows].
  unfold configure_request, apply_request.
  rewrite lookup_alter_eq, lookup_alter_ne, Hc by congruence.
  destruct (apply_configure_request 0 0 (width c) (height c) xc)
    as (-> & -> & -> & ->).
  cbn [cn_window cn_event cn_x cn_y cn_width cn_height cn_border_width].
  repeat split; reflexivity.
Qed.

(** ** Redrawing *)

(** X14: [update_bg] paints the stored slice with the SOURCE operator and
    then the tint colour with the OVER operator before it touches a window;
    the only window it clears with exposures is the icon window (the
    embedder window is cleared without); it returns normally exactly when it
    got as far as flushing the connection; and it changes neither the
    window table nor the slices. *)
Theorem update_bg_outcome (c : tray_client) (w : world) :
  embedder c ≠ client c →
  ∃ tail,
    w_log (update_bg rejects c w).2 = w_log w ++ composite_ops c ++ tail
    ∧ ((update_bg rejects c w).1 = Ok tt ↔ ConnectionFlush ∈ tail)
    ∧ (∀ win px py wd ht v,
         Checked (ClearArea true win px py wd ht) v ∈ tail → win = client c)
    ∧ observations tail = []
    ∧ w_windows (update_bg rejects c w).2 = w_windows w
    ∧ w_slices (update_bg rejects c w).2 = w_slices w.
Proof.
  intros Hne. rewrite update_bg_eq. cbv zeta.
  pose proof (log_events_frame (composite_ops c) w) as (Hw & Hs & _).
  unfold embedder, client in *.
  destruct (rejects (w_log (log_events _ w)) _) eqn:R1.
  { eexists [_]. cbn [fst snd log_event w_log w_windows w_slices].
    rewrite log_events_log, <- app_assoc.
    split; [reflexivity|]. split.
    { split; [discriminate|]. intros Hin. apply list_elem_of_singleton in Hin.
      discriminate. }
    split.
    { intros * Hin. apply list_elem_of_singleton in Hin. discriminate. }
    now repeat split. }
  destruct (rejects (w_log (log_event _ _)) _) eqn:R2.
  { eexists [_; _]. cbn [fst snd log_event w_log w_windows w_slices].
    rewrite log_events_log, <- !app_assoc.
    split; [reflexivity|]. split.
    { split; [discriminate|]. intros Hin.
      repeat (apply elem_of_cons in Hin as [Hin|Hin]; [discriminate|]).
      now apply elem_of_nil in Hin. }
    split.
    { intros * Hin.
      apply elem_of_cons in Hin as [Hin|Hin]; [discriminate|].
      apply list_elem_of_singleton in Hin. now injection Hin. }
    now repeat split. }
  eexists [_; _; _]. cbn [fst snd log_event w_log w_windows w_slices].
  rewrite log_events_log, <- !app_assoc.
  split; [reflexivity|]. split.
  { split; [|reflexivity]. intros _. set_solver. }
  split.
  { intros * Hin.
    apply elem_of_cons in Hin as [Hin|Hin]; [discriminate|].
    apply elem_of_cons in Hin as [Hin|Hin]; [now injection Hin|].
    apply list_elem_of_singleton in Hin. discriminate. }
  now repeat split.
Qed.

(** ** What the interface never does *)

Lemma dom_apply_request r (ws : gmap N xwindow) :
  steady_request r = true → dom (apply_request r ws) =@{gset N} dom ws.
Proof.
  destruct r; cbn [steady_request apply_request]; intros H;
    try discriminate; try reflexivity; apply dom_alter_L.
Qed.

Lemma quiet_ret {A} (a : A) : quiet (mret a).
Proof. now intros w. Qed.

Lemma quiet_bind {A B} (m : W A) (f : A → W B) :
  quiet m → (∀ a, quiet (f a)) → quiet (m ≫= f).
Proof.
  intros Hm Hf w. rewrite bind_run. specialize (Hm w).
  destruct (m w) as [[a|e] w1]; cbn [fst snd] in *; [|exact Hm].
  destruct (Hf a w1) as (H1 & H2 & H3). destruct Hm as (G1 & G2 & G3).
  now rewrite H1, H2, H3.
Qed.

Lemma quiet_checked r : steady_request r = true → quiet (checked rejects r).
Proof.
  intros H w. unfold checked.
  destruct (rejects (w_log w) r);
    cbn [fst snd log_event set_w_windows w_windows w_slices w_log];
    rewrite observations_snoc_checked; [done|].
  now rewrite dom_apply_request.
Qed.

Lemma quiet_unchecked r : steady_request r = true → quiet (unchecked rejects r).
Proof.
  intros H w. unfold unchecked.
  destruct (rejects (w_log w) r);
    cbn [fst snd log_event set_w_windows w_windows w_slices w_log];
    rewrite observations_app; cbn; rewrite app_nil_r; [done|].
  now rewrite dom_apply_request.
Qed.

Lemma clear_window_quiet c : quiet (clear_window rejects c).
Proof.
  unfold clear_window, clear_area_checked.
  apply quiet_bind; [|intros _]; now apply quiet_checked.
Qed.

Lemma ensure_state_quiet c : quiet (ensure_state rejects c).
Proof.
  unfold ensure_state. cbv zeta.
  destruct (eqb _ _); [apply quiet_ret|].
  destruct (should_be_mapped c);
    unfold map_window_checked, unmap_window_checked;
    (apply quiet_bind; [|intros _]; now apply quiet_checked).
Qed.

Lemma notify_xembed_quiet c : quiet (notify_xembed rejects c).
Proof.
  unfold notify_xembed. destruct (is_xembed_supported c); [|apply quiet_ret].
  now apply quiet_unchecked.
Qed.

Lemma call_quiet {A} (f : tray_client → W A) s :
  (∀ c, quiet (f c)) →
  dom (w_windows (call f s).2.2) =@{gset N} dom (w_windows s.2)
  ∧ w_slices (call f s).2.2 = w_slices s.2
  ∧ observations (w_log (call f s).2.2) = observations (w_log s.2).
Proof.
  intros H. unfold call. specialize (H s.1 s.2).
  now destruct (f s.1 s.2).
Qed.

Lemma set_position_dom x y s :
  dom (w_windows (set_position rejects x y s).2.2) =@{gset N} dom (w_windows s.2).
Proof.
  destruct s as [c w].
  destruct (position_eqb {| pos_x := x; pos_y := y |} (m_pos c)) eqn:E.
  - apply position_eqb_eq in E. now rewrite set_position_same.
  - apply position_eqb_neq in E.
    rewrite (set_position_changed x y c w E). cbv zeta.
    destruct (rejects (w_log w) _); [reflexivity|].
    destruct (rejects (w_log _) _).
    + cbn [fst snd log_event set_w_windows w_windows].
      now apply dom_apply_request.
    + set (c1 := set_m_pos _ c). set (w2 := log_event _ _).
      destruct (observe_background_facts c1 w2) as (_ & _ & _ & Hwin).
      cbv zeta in Hwin. rewrite Hwin. subst w2.
      cbn [fst snd log_event set_w_windows w_windows].
      now rewrite !dom_apply_request.
Qed.

Lemma invoke_quiet m s :
  is_set_position m = false →
  dom (w_windows (invoke rejects id m s).2.2) =@{gset N} dom (w_windows s.2)
  ∧ w_slices (invoke rejects id m s).2.2 = w_slices s.2
  ∧ observations (w_log (invoke rejects id m s).2.2) = observations (w_log s.2).
Proof.
  destruct m; cbn [is_set_position invoke]; intros H; try discriminate;
    try (now unfold observe_only).
  - apply call_quiet, clear_window_quiet.
  - apply call_quiet. intros c. unfold update_client_attributes,
      change_window_attributes_checked, XCB_AUX_ADD_PARAM.
    cbv beta iota zeta. now apply quiet_checked.
  - apply call_quiet. intros c. unfold reparent, reparent_window_checked.
    now apply quiet_checked.
  - unfold mapped_set. rewrite bind_run. cbn [this fst snd].
    now destruct (negb _).
  - destruct s as [c w]. now rewrite query_xembed_run.
  - apply call_quiet, notify_xembed_quiet.
  - apply call_quiet. intros c. unfold add_to_save_set, change_save_set_checked.
    now apply quiet_checked.
  - apply call_quiet, ensure_state_quiet.
  - apply call_quiet. intros c. unfold configure_notify, send_event_checked.
    cbv zeta. now apply quiet_checked.
Qed.

Lemma invoke_keeps_bg_slice m :
  is_set_position m = false → keeps m_bg_slice (invoke rejects id m).
Proof.
  destruct m; cbn [is_set_position invoke]; intros H;
    try discriminate; auto with keeps.
  - unfold mapped_set. apply keeps_bind; [apply keeps_this | intros c].
    destruct (negb _); [now apply keeps_update | apply keeps_ret].
  - now apply keeps_update.
  - now apply query_xembed_keeps.
Qed.

(** X15: no call of the interface creates or destroys a window: after any
    run of calls, whatever failed on the way, the server knows exactly the
    windows it knew before. *)
Theorem run_never_creates_or_destroys (ms : list method) (s : tray_client * world) :
  dom (w_windows (run rejects id ms s).2) =@{gset N} dom (w_windows s.2).
Proof.
  revert s. induction ms as [|m ms IH]; intros s; [reflexivity|].
  change (run rejects id (m :: ms) s)
    with (run rejects id ms (invoke rejects id m s).2).
  rewrite IH.
  destruct (is_set_position m) eqn:E.
  - destruct m; try discriminate. apply set_position_dom.
  - now apply invoke_quiet.
Qed.

(** X16: [set_position] is the only call of the interface that asks the
    background manager for a slice: a run of calls without it leaves the
    slices handed out, the refreshes in the trace and the slice pointer of
    the client as they were. *)
Theorem only_set_position_requests_slices
    (ms : list method) (s : tray_client * world) :
  Forall (λ m, is_set_position m = false) ms →
  w_slices (run rejects id ms s).2 = w_slices s.2
  ∧ observations (w_log (run rejects id ms s).2) = observations (w_log s.2)
  ∧ m_bg_slice (run rejects id ms s).1 = m_bg_slice s.1.
Proof.
  intros H. revert s. induction H as [|m ms Hm _ IH]; intros s; [done|].
  change (run rejects id (m :: ms) s)
    with (run rejects id ms (invoke rejects id m s).2).
  destruct (IH (invoke rejects id m s).2) as (-> & -> & ->).
  destruct (invoke_quiet m s Hm) as (_ & -> & ->).
  now rewrite (invoke_keeps_bg_slice m Hm s).
Qed.

End Properties.

(** * The properties on the sample data *)

Import Sample.

Lemma ctor_world0 :
  tray_client_ctor accept_all 2%N 7%N size22 background world0
  = (Ok client1, world1).
Proof. vm_compute. reflexivity. Qed.

(** The policy on a hidden client, on one that speaks XEMBED and on one that
    does not. *)
Lemma should_be_mapped_policy_witness :
  should_be_mapped client1_hidden = false
  ∧ should_be_mapped client1_xembed = is_mapped (get_xembed client1_xembed)
  ∧ should_be_mapped client1 = true.
Proof.
  split; [|split].
  - apply (proj1 (should_be_mapped_policy client1_hidden)). reflexivity.
  - apply (proj1 (proj2 (should_be_mapped_policy client1_xembed)));
      reflexivity.
  - apply (proj2 (proj2 (should_be_mapped_policy client1))); reflexivity.
Defined.

(** The icon window 7 matches; the embedder window 100 and the bar window 2
    do not. *)
Lemma match_is_icon_handle_witness :
  match_ client1 7%N = true
  ∧ match_ client1 100%N = false
  ∧ match_ client1 2%N = false
  ∧ match_ client1 (embedder client1) = false.
Proof.
  destruct (match_is_icon_handle accept_all client1 7%N) as (Hicon & _).
  destruct (match_is_icon_handle accept_all client1 100%N) as (_ & _ & Hemb & _).
  destruct (match_is_icon_handle accept_all client1 2%N)
    as (_ & Hother & _ & Hctor).
  destruct (Hctor 2%N 7%N size22 background world0 world1 ctor_world0)
    as (_ & Hfresh).
  split; [|split; [|split]].
  - apply Hicon. reflexivity.
  - apply Hemb. discriminate.
  - apply Hother. discriminate.
  - apply Hfresh. reflexivity.
Defined.

(** Mapping the fresh client: embedder window 100, then icon window 7.
    Unmapping a mapped client that was hidden: icon window 7, then embedder
    window 100. *)
Lemma ensure_state_order_witness :
  w_log (ensure_state accept_all client1 world1).2
  = w_log world1 ++ [Checked (MapWindow 100%N) false;
                     Checked (MapWindow 7%N) false]
  ∧ w_log (ensure_state accept_all client1_hidden world1).2
    = w_log world1 ++ [Checked (UnmapWindow 7%N) false;
                       Checked (UnmapWindow 100%N) false].
Proof.
  split.
  - apply (ensure_state_order accept_all client1 world1). discriminate.
  - apply (ensure_state_order accept_all client1_hidden world1). discriminate.
Defined.

(** A second [set_position(0, 0)] on the fresh client does nothing. *)
Lemma set_position_unchanged_noop_witness :
  set_position accept_all 0 0 (client1, world1) = (Ok tt, (client1, world1)).
Proof.
  apply (set_position_unchanged_noop accept_all 0 0 client1 world1).
  reflexivity.
Defined.

(** Moving the fresh client to (5, 5): slice 1 replaces slice 0. *)
Lemma set_position_refreshes_background_witness :
  m_bg_slice client1 = Some 0%nat
  ∧ m_bg_slice (set_position accept_all 5 5 (client1, world1)).2.1 = Some 1%nat
  ∧ observations (w_log (set_position accept_all 5 5 (client1, world1)).2.2)
    = observations (w_log world1)
      ++ [({| rect_x := 0; rect_y := 0; rect_width := 22; rect_height := 22 |},
           100%N, 1%nat)].
Proof.
  assert (H1 : {| pos_x := 5; pos_y := 5 |} ≠ m_pos client1) by discriminate.
  assert (H2 : fits_x11 (m_size client1)) by (vm_compute; intuition discriminate).
  destruct (set_position_refreshes_background accept_all 5 5 client1 world1
              H1 H2 eq_refl eq_refl) as (Hobs & _ & Hslice & _).
  split; [reflexivity|]. split; [exact Hslice | exact Hobs].
Defined.

(** Moving the fresh client to (5, 5) on a server that rejects
    ConfigureWindow: the call throws, the position is (5, 5) all the same
    and the windows are where they were.  On a server that rejects ClearArea
    the background refresh is what fails, and the position is (5, 5) too. *)
Lemma set_position_not_atomic_witness :
  (set_position reject_configure 5 5 (client1, world1)).1
  = Throw (RequestFailed (configure_request 100%N 5 5 22 22))
  ∧ m_pos (set_position reject_configure 5 5 (client1, world1)).2.1
    = {| pos_x := 5; pos_y := 5 |}
  ∧ w_windows (set_position reject_configure 5 5 (client1, world1)).2.2
    = w_windows world1
  ∧ (set_position reject_clear_area 5 5 (client1, world1)).1
    = Throw (RequestFailed (ClearArea false 100%N 0 0 22 22))
  ∧ m_pos (set_position reject_clear_area 5 5 (client1, world1)).2.1
    = {| pos_x := 5; pos_y := 5 |}.
Proof.
  assert (H1 : {| pos_x := 5; pos_y := 5 |} ≠ m_pos client1) by discriminate.
  assert (H2 : (set_position reject_configure 5 5 (client1, world1)).1
               = Throw (RequestFailed (configure_request 100%N 5 5 22 22)))
    by (vm_compute; reflexivity).
  assert (H3 : (set_position reject_clear_area 5 5 (client1, world1)).1
               = Throw (RequestFailed (ClearArea false 100%N 0 0 22 22)))
    by (vm_compute; reflexivity).
  destruct (set_position_not_atomic reject_configure 5 5 client1 world1 _ H1 H2)
    as (Hpos & _ & Hrej).
  destruct (Hrej eq_refl) as (_ & Hwin & _).
  destruct (set_position_not_atomic reject_clear_area 5 5 client1 world1 _ H1 H3)
    as (Hpos' & _).
  split; [exact H2|]. split; [exact Hpos|]. split; [exact Hwin|].
  split; [exact H3 | exact Hpos'].
Defined.

(** The fresh client is out of sync and gets mapped, embedder window 100
    first and icon window 7 second; a second call in a row sends both
    requests again; once recorded as mapped the client is in sync and
    [ensure_state] does nothing. *)
Lemma ensure_state_sync_witness :
  ensure_state accept_all client1_mapped world1 = (Ok tt, world1)
  ∧ w_log (ensure_state accept_all client1 world1).2
    = w_log world1 ++ [Checked (MapWindow 100%N) false;
                       Checked (MapWindow 7%N) false]
  ∧ (ensure_state accept_all client1 world1).1 = Ok tt
  ∧ w_log (ensure_state accept_all client1
             (ensure_state accept_all client1 world1).2).2
    = w_log world1 ++ [Checked (MapWindow 100%N) false;
                       Checked (MapWindow 7%N) false]
                   ++ [Checked (MapWindow 100%N) false;
                       Checked (MapWindow 7%N) false]
  ∧ (invoke accept_all plain_id call_ensure_state (client1, world1)).2.1
    = client1.
Proof.
  destruct (ensure_state_sync accept_all plain_id client1 world1)
    as (_ & Hout & Hobj & Hrec).
  assert (H1 : should_be_mapped client1 ≠ m_mapped client1) by discriminate.
  destruct (Hout H1) as (Hlog & Hres & Hrep).
  split; [apply (Hrec world1)|].
  rewrite Hlog, Hres, Hrep, Hobj. repeat split.
Defined.

(** Hiding, syncing, moving, querying and reparenting leave the flag false;
    the setter then makes it true. *)
Lemma mapped_flag_written_by_setter_only_witness :
  m_mapped
    (run accept_all plain_id
       [call_hidden true; call_ensure_state; call_set_position 5 5;
        call_query_xembed; call_reparent] (client1, world1)).1 = false
  ∧ m_mapped
      (run accept_all plain_id
         ([call_hidden true; call_ensure_state; call_set_position 5 5;
           call_query_xembed; call_reparent] ++ [call_mapped_set true])
         (client1, world1)).1 = true.
Proof.
  assert (H : Forall (λ m, is_mapped_set m = false)
                [call_hidden true; call_ensure_state; call_set_position 5 5;
                 call_query_xembed; call_reparent])
    by (repeat constructor).
  destruct (mapped_flag_written_by_setter_only accept_all plain_id _
              (client1, world1) H) as [Hkeep Hset].
  split; [exact Hkeep | exact (Hset true)].
Defined.


(** Destruction on a server that rejects everything still issues both steps
    and returns. *)
Lemma dtor_best_effort_witness :
  (tray_client_dtor reject_all client1 world1).1 = Ok tt
  ∧ w_log (tray_client_dtor reject_all client1 world1).2
    = w_log world1 ++ [Unchecked (Unembed 7%N 1%N) true;
                       Unchecked (DestroyWindow 100%N) true].
Proof.
  apply (dtor_best_effort reject_all client1 world1); discriminate.
Defined.

(** ** Where the code departs from the claims *)

(** C1 as stated fails: two [ensure_state] calls in a row on the fresh
    client both issue the two map requests, and the stored flag is false
    after them while [should_be_mapped] is true. *)
Lemma ensure_state_repeats_counterexample :
  window_operations
    (w_log (run accept_all plain_id [call_ensure_state] (client1, world1)).2)
  = window_operations (w_log world1) ++ [MapWindow 100%N; MapWindow 7%N]
  ∧ window_operations
      (w_log (run accept_all plain_id [call_ensure_state; call_ensure_state]
                (client1, world1)).2)
    = window_operations (w_log world1)
      ++ [MapWindow 100%N; MapWindow 7%N; MapWindow 100%N; MapWindow 7%N]
  ∧ m_mapped (run accept_all plain_id [call_ensure_state] (client1, world1)).1
    = false
  ∧ should_be_mapped
      (run accept_all plain_id [call_ensure_state] (client1, world1)).1 = true.
Proof. vm_compute. repeat split. Qed.

(** C2 as stated fails: the setter [mapped(bool)] changes the stored flag
    directly and sends nothing, while [ensure_state] leaves the flag false
    although it maps the windows. *)
Lemma mapped_setter_counterexample :
  m_mapped client1 = false
  ∧ m_mapped
      (invoke accept_all plain_id (call_mapped_set true) (client1, world1)).2.1
    = true
  ∧ w_log
      (invoke accept_all plain_id (call_mapped_set true) (client1, world1)).2.2
    = w_log world1
  ∧ m_mapped
      (invoke accept_all plain_id call_ensure_state (client1, world1)).2.1
    = false.
Proof. vm_compute. repeat split. Qed.


(** ** The further properties on the sample data *)

(** Moving to (5, 5) on a server that rejects ConfigureWindow keeps slice 0
    although the position changed. *)
Lemma set_position_failed_keeps_slice_witness :
  m_bg_slice (set_position reject_configure 5 5 (client1, world1)).2.1
  = Some 0%nat
  ∧ m_pos (set_position reject_configure 5 5 (client1, world1)).2.1
    = {| pos_x := 5; pos_y := 5 |}
  ∧ w_slices (set_position reject_configure 5 5 (client1, world1)).2.2
    = w_slices world1.
Proof.
  assert (H1 : {| pos_x := 5; pos_y := 5 |} ≠ m_pos client1) by discriminate.
  destruct (set_position_failed_keeps_slice reject_configure 5 5 client1 world1
              H1 (or_introl eq_refl)) as (_ & Hc & Hs & _).
  rewrite Hc. split; [reflexivity|]. split; [reflexivity | exact Hs].
Defined.

(** Mapping on a server that rejects the map of the icon window: the call
    throws with the embedder window mapped and the icon window not. *)
Lemma ensure_state_partial_failure_witness :
  (ensure_state (reject_map_of 7%N) client1 world1).1
  = Throw (RequestFailed (MapWindow 7%N))
  ∧ (xw_mapped <$> w_windows (ensure_state (reject_map_of 7%N) client1 world1).2
                     !! 100%N) = Some true
  ∧ (xw_mapped <$> w_windows (ensure_state (reject_map_of 7%N) client1 world1).2
                     !! 7%N) = Some false.
Proof.
  assert (H1 : should_be_mapped client1 ≠ m_mapped client1) by discriminate.
  assert (H2 : embedder client1 ≠ client client1) by discriminate.
  destruct (ensure_state_partial_failure (reject_map_of 7%N) client1 world1
              H1 H2) as (_ & Hsecond).
  destruct (Hsecond eq_refl eq_refl) as (Hthrow & _ & Hemb & Hicon).
  change (if should_be_mapped client1 then embedder client1
          else client client1) with 100%N in Hemb.
  change (if should_be_mapped client1 then client client1
          else embedder client1) with 7%N in Hicon.
  split; [exact Hthrow|]. split.
  - rewrite Hemb. vm_compute. reflexivity.
  - rewrite Hicon. vm_compute. reflexivity.
Defined.

(** No window 9 in the sample world: the constructor throws at once. *)
Lemma ctor_missing_icon_witness :
  tray_client_ctor accept_all 2%N 9%N size22 background world0
  = (Throw (RequestFailed (GetGeometry 9%N)),
     log_event (Checked (GetGeometry 9%N) true) world0).
Proof.
  apply (ctor_missing_icon accept_all 2%N 9%N size22 background world0).
  reflexivity.
Defined.

(** When visual 33 is unknown the constructor throws after creating window
    100, which stays in the table. *)
Lemma ctor_unknown_visual_leaks_witness :
  ∃ icon emb,
    w_windows world_no_visual !! 7%N = Some icon
    ∧ (xw_visual icon ∉ w_visuals world_no_visual)
    ∧ w_windows
        (tray_client_ctor accept_all 2%N 7%N size22 background world_no_visual).2
        !! w_next_id world_no_visual = Some emb
    ∧ xw_parent emb = 2%N
    ∧ w_next_id
        (tray_client_ctor accept_all 2%N 7%N size22 background world_no_visual).2
      = (w_next_id world_no_visual + 3)%N
    ∧ w_slices
        (tray_client_ctor accept_all 2%N 7%N size22 background world_no_visual).2
      = w_slices world_no_visual
    ∧ observations
        (w_log
           (tray_client_ctor accept_all 2%N 7%N size22 background
              world_no_visual).2)
      = observations (w_log world_no_visual).
Proof.
  apply (ctor_unknown_visual_leaks accept_all 2%N 7%N size22 background
           world_no_visual _ "Failed to get root visual for tray background").
  vm_compute. reflexivity.
Defined.

(** The accepting server builds a client for the icon window 7. *)
Lemma ctor_succeeds_witness :
  ∃ c w',
    tray_client_ctor accept_all 2%N 7%N size22 background world0 = (Ok c, w')
    ∧ client c = 7%N ∧ width c = 22 ∧ height c = 22.
Proof.
  apply (ctor_succeeds accept_all 2%N 7%N size22 background world0 icon_window).
  - reflexivity.
  - reflexivity.
  - vm_compute. set_solver.
Defined.

(** The embedder window of the sample client has depth 24, visual 33 and
    colormap 32 like the icon window, not 32, 40 and 41 like the bar. *)
Lemma ctor_embedder_inherits_witness :
  ∃ icon emb,
    w_windows world0 !! client client1 = Some icon
    ∧ w_windows world1 !! embedder client1 = Some emb
    ∧ xw_depth emb = xw_depth icon
    ∧ xw_visual emb = xw_visual icon
    ∧ xw_colormap emb = xw_colormap icon
    ∧ xw_parent emb = 2%N
    ∧ xw_mapped emb = false
    ∧ is_Some (m_bg_slice client1).
Proof.
  exact (ctor_embedder_inherits accept_all 2%N 7%N size22 background
           world0 world1 client1 ctor_world0).
Defined.


(** After moving the sample client to (5, 5) the notification describes the
    22x22 icon window at (0, 0). *)
Lemma configure_notify_agrees_with_set_position_witness :
  ∃ ev xc',
    w_log (configure_notify accept_all
             (set_position accept_all 5 5 (client1, world1)).2.1
             (set_position accept_all 5 5 (client1, world1)).2.2).2
    = w_log (set_position accept_all 5 5 (client1, world1)).2.2 ++
        [Checked (SendEvent false (client client1)
                    XCB_EVENT_MASK_STRUCTURE_NOTIFY ev)
           (accept_all (w_log (set_position accept_all 5 5 (client1, world1)).2.2)
              (SendEvent false (client client1)
                 XCB_EVENT_MASK_STRUCTURE_NOTIFY ev))]
    ∧ w_windows (set_position accept_all 5 5 (client1, world1)).2.2
        !! client client1 = Some xc'
    ∧ cn_window ev = client client1 ∧ cn_event ev = client client1
    ∧ cn_x ev = xw_x xc' ∧ cn_y ev = xw_y xc'
    ∧ cn_width ev = xw_width xc' ∧ cn_height ev = xw_height xc'
    ∧ cn_border_width ev = 0.
Proof.
  assert (H1 : {| pos_x := 5; pos_y := 5 |} ≠ m_pos client1) by discriminate.
  assert (H2 : embedder client1 ≠ client client1) by discriminate.
  assert (H3 : w_windows world1 !! client client1 = Some icon_window)
    by (vm_compute; reflexivity).
  exact (configure_notify_agrees_with_set_position accept_all 5 5 client1 world1
           icon_window H1 H2 H3 eq_refl eq_refl).
Defined.

(** Redrawing the sample client on a server that rejects ClearArea. *)
Lemma update_bg_outcome_witness :
  ∃ tail,
    w_log (update_bg reject_clear_area client1 world1).2
    = w_log world1 ++ composite_ops client1 ++ tail
    ∧ ((update_bg reject_clear_area client1 world1).1 = Ok tt
       ↔ ConnectionFlush ∈ tail)
    ∧ (∀ win px py wd ht v,
         Checked (ClearArea true win px py wd ht) v ∈ tail → win = client client1)
    ∧ observations tail = []
    ∧ w_windows (update_bg reject_clear_area client1 world1).2 = w_windows world1
    ∧ w_slices (update_bg reject_clear_area client1 world1).2 = w_slices world1.
Proof.
  apply (update_bg_outcome reject_clear_area client1 world1). discriminate.
Defined.

(** Hiding, syncing, querying, notifying and clearing request no slice. *)
Lemma only_set_position_requests_slices_witness :
  w_slices
    (run accept_all plain_id
       [call_hidden true; call_ensure_state; call_query_xembed;
        call_notify_xembed; call_clear_window; call_configure_notify]
       (client1, world1)).2 = w_slices world1
  ∧ m_bg_slice
      (run accept_all plain_id
         [call_hidden true; call_ensure_state; call_query_xembed;
          call_notify_xembed; call_clear_window; call_configure_notify]
         (client1, world1)).1 = Some 0%nat.
Proof.
  assert (H : Forall (λ m, is_set_position m = false)
                [call_hidden true; call_ensure_state; call_query_xembed;
                 call_notify_xembed; call_clear_window; call_configure_notify])
    by (repeat constructor).
  destruct (only_set_position_requests_slices accept_all plain_id _
              (client1, world1) H) as (Hs & _ & Hb).
  rewrite Hs, Hb. split; reflexivity.
Defined.

(** C7 as stated fails.  On a server that rejects ConfigureWindow a
    [set_position] to a position other than the cached one throws before it
    asks for a slice: no refresh is in the trace and [m_bg_slice] is the old
    slice.  And for a target width of 65558 the rectangle asked for is 22
    wide, the width cut to 16 bits. *)
Lemma set_position_rejected_configure_counterexample :
  {| pos_x := 5; pos_y := 5 |} ≠ m_pos client1
  ∧ (set_position reject_configure 5 5 (client1, world1)).1
    = Throw (RequestFailed (configure_request 100%N 5 5 22 22))
  ∧ observations (w_log (set_position reject_configure 5 5 (client1, world1)).2.2)
    = observations (w_log world1)
  ∧ m_bg_slice (set_position reject_configure 5 5 (client1, world1)).2.1
    = m_bg_slice client1
  ∧ width client_wide = 65558
  ∧ observations (w_log (set_position accept_all 5 5 (client_wide, world1)).2.2)
    = observations (w_log world1)
      ++ [({| rect_x := 0; rect_y := 0; rect_width := 22; rect_height := 22 |},
           100%N, 1%nat)].
Proof. split; [discriminate|]. vm_compute. repeat split. Qed.
